(** * rosa [describe cluster]: a shallow embedding of cmd/describe/cluster/cmd.go

    The command fetches a cluster and the resources attached to it (upgrade
    policy, machine or node pools, limited-support reasons) through the OCM
    client and renders them as a text report or as a structured map.

    - Go [int] is a 64-bit two's complement integer: a [Z] with the
      wrap-around of [+=] written out ([Int.add]).
    - Go [string] is a byte string: [string]; [fmt.Sprintf] over [%s], [%d]
      and [%t] is concatenation of the rendered arguments.
    - [map[string]struct{}] is a [gset string], [map[string]interface{}] a
      [gmap string Value].
    - The OCM SDK objects ([cmv1.Cluster], [cmv1.NodePool], ...) are records;
      a pointer that the code compares with [nil] is an [option].  The SDK
      getters are nil-safe and return the zero value of an unset field.
    - [run] is written in a state monad over the process' two output streams
      with early termination ([return] and [os.Exit]). *)

From Stdlib Require Import ZArith String Ascii DecimalString List Lia.
From stdpp Require Import gmap strings list.

Set Warnings "-register-all".

Open Scope Z_scope.

(** ** Go integers *)

Module Int.
Definition min_int : Z := - 2 ^ 63.
Definition max_int : Z := 2 ^ 63 - 1.

(** The value of a mathematical integer once stored in an [int]. *)
Definition wrap (z : Z) : Z := (z + 2 ^ 63) mod 2 ^ 64 - 2 ^ 63.

(** [a + b] and [a += b] on [int]. *)
Definition add (a b : Z) : Z := wrap (a + b).

Definition in_range (z : Z) : Prop := min_int <= z <= max_int.

(** [len(s)] of a string. *)
Definition len (s : string) : Z := Z.of_nat (String.length s).
End Int.

(** ** The [fmt] verbs the command uses *)

Module fmt.
Definition LF : string := String (ascii_of_nat 10) EmptyString.

(** [%d] of an [int]. *)
Definition d (z : Z) : string := NilZero.string_of_int (Z.to_int z).

(** [%t] of a [bool]. *)
Definition t (b : bool) : string := if b then "true" else "false".
End fmt.

Abbreviation LF := fmt.LF.

(** ** [time.Time], as far as the command looks at it *)

Module time.
Record Time := mkTime { unixSeconds : Z; location : string }.

(** [time.Time{}]: January 1, year 1, 00:00:00 UTC. *)
Definition zero : Time := mkTime (-62135596800) "UTC".
End time.

(** ** The OCM SDK objects (package [cmv1]) *)

Module NodePoolAutoscaling.
Record t := mk { MinReplica : Z; MaxReplica : Z }.
End NodePoolAutoscaling.

Module NodePoolStatus.
Record t := mk { CurrentReplicas : Z }.
End NodePoolStatus.

Module NodePool.
Record t := mk {
  AvailabilityZone : string;
  Autoscaling : option NodePoolAutoscaling.t;
  Replicas : Z;
  Status : option NodePoolStatus.t
}.
End NodePool.

Module MachinePoolAutoscaling.
Record t := mk { MinReplicas : Z; MaxReplicas : Z }.
End MachinePoolAutoscaling.

Module MachinePool.
Record t := mk {
  Autoscaling : option MachinePoolAutoscaling.t;
  Replicas : Z
}.
End MachinePool.

Module UpgradePolicyState.
Record t := mk { value : string }.

(** [Value()] on a pointer receiver: empty on a nil receiver. *)
Definition Value (o : option t) : string :=
  match o with Some s => value s | None => "" end.
End UpgradePolicyState.

Module UpgradePolicy.
Record t := mk { version : string; nextRun : option time.Time }.

Definition Version (o : option t) : string :=
  match o with Some p => version p | None => "" end.

(** [NextRun()] of an unset field is the zero time. *)
Definition NextRun (o : option t) : time.Time :=
  match o with
  | Some p => match nextRun p with Some x => x | None => time.zero end
  | None => time.zero
  end.
End UpgradePolicy.

Module ControlPlaneUpgradePolicy.
Record t := mk {
  state : option UpgradePolicyState.t;
  version : string;
  nextRun : option time.Time
}.

Definition State (o : option t) : option UpgradePolicyState.t :=
  match o with Some p => state p | None => None end.

Definition Version (o : option t) : string :=
  match o with Some p => version p | None => "" end.

Definition NextRun (o : option t) : time.Time :=
  match o with
  | Some p => match nextRun p with Some x => x | None => time.zero end
  | None => time.zero
  end.
End ControlPlaneUpgradePolicy.

Module LimitedSupportReason.
Record t := mk { Summary : string; Details : string }.
End LimitedSupportReason.

Module ClusterStatus.
Record t := mk {
  state : string;
  dnsReady : bool;
  provisionErrorMessage : string;
  provisionErrorCode : string;
  description : string
}.

Definition State (o : option t) : string :=
  match o with Some s => state s | None => "" end.
Definition DNSReady (o : option t) : bool :=
  match o with Some s => dnsReady s | None => false end.
Definition ProvisionErrorMessage (o : option t) : string :=
  match o with Some s => provisionErrorMessage s | None => "" end.
Definition ProvisionErrorCode (o : option t) : string :=
  match o with Some s => provisionErrorCode s | None => "" end.
Definition Description (o : option t) : string :=
  match o with Some s => description s | None => "" end.
End ClusterStatus.

Module Proxy.
Record t := mk { httpProxy : string; httpsProxy : string; noProxy : string }.

Definition HTTPProxy (o : option t) : string :=
  match o with Some p => httpProxy p | None => "" end.
Definition HTTPSProxy (o : option t) : string :=
  match o with Some p => httpsProxy p | None => "" end.
Definition NoProxy (o : option t) : string :=
  match o with Some p => noProxy p | None => "" end.
End Proxy.

Module OidcConfig.
Record t := mk { managed : bool }.

Definition Managed (o : option t) : bool :=
  match o with Some c => managed c | None => false end.
End OidcConfig.

Module STS.
Record t := mk {
  RoleARN : string;
  ExternalID : string;
  SupportRoleARN : string;
  MasterRoleARN : string;           (* InstanceIAMRoles().MasterRoleARN() *)
  WorkerRoleARN : string;           (* InstanceIAMRoles().WorkerRoleARN() *)
  OperatorIAMRoles : list string;   (* the RoleARN() of each operator role *)
  ManagedPolicies : bool;
  OidcConfig : option OidcConfig.t;
  OIDCEndpointURL : string
}.
End STS.

Module ClusterNodes.
Record t := mk {
  AutoscaleCompute : option MachinePoolAutoscaling.t;
  Compute : Z;
  Master : Z;
  Infra : Z
}.
End ClusterNodes.

Module Network.
Record t := mk {
  Type_ : string;
  ServiceCIDR : string;
  MachineCIDR : string;
  PodCIDR : string;
  HostPrefix : Z
}.
End Network.

(** [cmv1.ClusterState] and [cmv1.ListeningMethod] are string types. *)
Definition ClusterStateError : string := "error".
Definition ClusterStateInstalling : string := "installing".
Definition ClusterStatePending : string := "pending".
Definition ClusterStateWaiting : string := "waiting".
Definition ListeningMethodInternal : string := "internal".

Module Cluster.
Record t := mk {
  HypershiftEnabled : bool;          (* Hypershift().Enabled() *)
  ID : string;
  ExternalID : string;
  Name : string;
  OpenshiftVersion : string;
  ChannelGroup : string;             (* Version().ChannelGroup() *)
  Properties : gmap string string;
  State : string;
  Status : option ClusterStatus.t;
  BaseDomain : string;               (* DNS().BaseDomain() *)
  Listening : string;                (* API().Listening() *)
  APIURL : string;                   (* API().URL() *)
  ConsoleURL : string;               (* Console().URL() *)
  RegionID : string;                 (* Region().ID() *)
  MultiAZ : bool;
  NodePools : option (list NodePool.t);
  Nodes : ClusterNodes.t;
  Network : Network.t;
  InfraID : string;
  Proxy : option Proxy.t;
  AdditionalTrustBundle : string;
  STS : STS.t;                       (* AWS().STS() *)
  BillingAccountID : string;         (* AWS().BillingAccountID() *)
  CreationTimestamp : time.Time;
  DisableUserWorkloadMonitoring : bool;
  FIPS : bool;
  SubscriptionID : string            (* Subscription().ID() *)
}.
End Cluster.

(** ** Go comparisons *)

(** [p != nil]. *)
Definition notNil {A} (p : option A) : bool :=
  match p with Some _ => true | None => false end.

(** [s != ""]. *)
Definition nonEmpty (s : string) : bool := negb (String.eqb s "").

(** ** Constants of the command *)

Definition StageURL : string := "https://qaprodauth.console.redhat.com/openshift/details/s/".
Definition ProductionURL : string := "https://console.redhat.com/openshift/details/s/".
Definition StageEnv : string := "https://api.stage.openshift.com".
Definition ProductionEnv : string := "https://api.openshift.com".

(** ** [getDetailsLink] *)

Definition getDetailsLink (environment : string) : string :=
  if String.eqb environment StageEnv then StageURL
  else if String.eqb environment ProductionEnv then ProductionURL
  else "".

(** ** [controlPlaneConfig], [getUseworkloadMonitoring], [BillingAccount] *)

Definition controlPlaneConfig (cluster : Cluster.t) : string :=
  if Cluster.HypershiftEnabled cluster then "ROSA Service Hosted"
  else "Customer Hosted".

Definition getUseworkloadMonitoring (disabled : bool) : string :=
  if disabled then "disabled" else "enabled".

Definition BillingAccount (cluster : Cluster.t) (isHostedControlPlane : bool) : string :=
  if negb isHostedControlPlane || negb (nonEmpty (Cluster.BillingAccountID cluster)) then ""
  else "AWS Billing Account:        " +:+ Cluster.BillingAccountID cluster +:+ LF.

(** ** [clusterMultiAZ] *)

(** The loop that fills [multiAzMap]. *)
Definition multiAzMap (nodePools : list NodePool.t) : gset string :=
  foldl (fun m nodePool => {[ NodePool.AvailabilityZone nodePool ]} ∪ m) ∅ nodePools.

(** The local [dataPlaneAvailability] of the hosted branch. *)
Definition dataPlaneAvailability (cluster : Cluster.t) (nodePools : list NodePool.t) : string :=
  match Cluster.NodePools cluster with
  | Some _ =>
      if 1 <? Z.of_nat (size (multiAzMap nodePools)) then "MultiAZ" else "SingleAZ"
  | None => "SingleAZ"
  end.

(** The [Sprintf] template of the hosted branch. *)
Definition hostedAvailability (dataPlane : string) : string :=
  "Availability:" +:+ LF +:+
  " - Control Plane:           MultiAZ" +:+ LF +:+
  " - Data Plane:              " +:+ dataPlane +:+ LF.

Definition clusterMultiAZ (cluster : Cluster.t) (nodePools : list NodePool.t) : string :=
  if Cluster.HypershiftEnabled cluster then
    hostedAvailability (dataPlaneAvailability cluster nodePools)
  else
    "Multi-AZ:                   " +:+ fmt.t (Cluster.MultiAZ cluster) +:+ LF.

(** ** [clusterInfraConfig] *)

(** Hosted branch: the body of the loop over the node pools. *)
Definition accumulateNodePool (counts : Z * Z * Z) (nodePool : NodePool.t) : Z * Z * Z :=
  let '(minNodes, maxNodes, currentNodes) := counts in
  let '(minNodes, maxNodes) :=
    match NodePool.Autoscaling nodePool with
    | Some a =>
        (Int.add minNodes (NodePoolAutoscaling.MinReplica a),
         Int.add maxNodes (NodePoolAutoscaling.MaxReplica a))
    | None =>
        (Int.add minNodes (NodePool.Replicas nodePool),
         Int.add maxNodes (NodePool.Replicas nodePool))
    end in
  let currentNodes :=
    match NodePool.Status nodePool with
    | Some s => Int.add currentNodes (NodePoolStatus.CurrentReplicas s)
    | None => currentNodes
    end in
  (minNodes, maxNodes, currentNodes).

(** Hosted branch: the loop, from [minNodes], [maxNodes], [currentNodes] at 0. *)
Definition hostedNodeCounts (nodePools : list NodePool.t) : Z * Z * Z :=
  foldl accumulateNodePool (0, 0, 0) nodePools.

(** Classic branch: the body of the loop over the machine pools. *)
Definition accumulateMachinePool (counts : Z * Z) (machinePool : MachinePool.t) : Z * Z :=
  let '(minNodes, maxNodes) := counts in
  match MachinePool.Autoscaling machinePool with
  | Some a =>
      (Int.add minNodes (MachinePoolAutoscaling.MinReplicas a),
       Int.add maxNodes (MachinePoolAutoscaling.MaxReplicas a))
  | None =>
      (Int.add minNodes (MachinePool.Replicas machinePool),
       Int.add maxNodes (MachinePool.Replicas machinePool))
  end.

(** Classic branch: the loop, from [minNodes] and [maxNodes] at 0. *)
Definition machinePoolCounts (machinePools : list MachinePool.t) : Z * Z :=
  foldl accumulateMachinePool (0, 0) machinePools.

(** Classic branch: the pools, then "Add compute nodes as well". *)
Definition classicNodeCounts (cluster : Cluster.t) (machinePools : list MachinePool.t) : Z * Z :=
  let '(minNodes, maxNodes) := machinePoolCounts machinePools in
  match ClusterNodes.AutoscaleCompute (Cluster.Nodes cluster) with
  | Some a =>
      (Int.add minNodes (MachinePoolAutoscaling.MinReplicas a),
       Int.add maxNodes (MachinePoolAutoscaling.MaxReplicas a))
  | None =>
      (Int.add minNodes (ClusterNodes.Compute (Cluster.Nodes cluster)),
       Int.add maxNodes (ClusterNodes.Compute (Cluster.Nodes cluster)))
  end.

(** The four [Sprintf] templates of [clusterInfraConfig]. *)
Definition hostedAutoscaled (minNodes maxNodes currentNodes : Z) : string :=
  "Nodes:" +:+ LF +:+
  " - Compute (Autoscaled):    " +:+ fmt.d minNodes +:+ "-" +:+ fmt.d maxNodes +:+ LF +:+
  " - Compute (current):       " +:+ fmt.d currentNodes +:+ LF.

Definition hostedDesired (maxNodes currentNodes : Z) : string :=
  "Nodes:" +:+ LF +:+
  " - Compute (desired):       " +:+ fmt.d maxNodes +:+ LF +:+
  " - Compute (current):       " +:+ fmt.d currentNodes +:+ LF.

Definition classicCompute (master infra minNodes : Z) : string :=
  "Nodes:" +:+ LF +:+
  " - Control plane:           " +:+ fmt.d master +:+ LF +:+
  " - Infra:                   " +:+ fmt.d infra +:+ LF +:+
  " - Compute:                 " +:+ fmt.d minNodes +:+ LF.

Definition classicAutoscaled (master infra minNodes maxNodes : Z) : string :=
  "Nodes:" +:+ LF +:+
  " - Control plane:           " +:+ fmt.d master +:+ LF +:+
  " - Infra:                   " +:+ fmt.d infra +:+ LF +:+
  " - Compute (Autoscaled):    " +:+ fmt.d minNodes +:+ "-" +:+ fmt.d maxNodes +:+ LF.

Definition clusterInfraConfig (cluster : Cluster.t) (clusterKey : string)
    (machinePools : list MachinePool.t) (nodePools : list NodePool.t) : string :=
  if Cluster.HypershiftEnabled cluster then
    let '(minNodes, maxNodes, currentNodes) := hostedNodeCounts nodePools in
    if negb (minNodes =? maxNodes) then hostedAutoscaled minNodes maxNodes currentNodes
    else hostedDesired maxNodes currentNodes
  else
    let '(minNodes, maxNodes) := classicNodeCounts cluster machinePools in
    if minNodes =? maxNodes then
      classicCompute (ClusterNodes.Master (Cluster.Nodes cluster))
                     (ClusterNodes.Infra (Cluster.Nodes cluster)) minNodes
    else
      classicAutoscaled (ClusterNodes.Master (Cluster.Nodes cluster))
                        (ClusterNodes.Infra (Cluster.Nodes cluster)) minNodes maxNodes.

(** ** Collaborators

    What [run] obtains from outside this file: the runtime and its OCM
    client, the [output] package, [arn.Parse], [time.Time.Format], the JSON
    codec, and two constants of sibling packages. *)

Inductive result (A : Type) : Type :=
| Ok (a : A)
| Err (err : string).
Arguments Ok {A} a.
Arguments Err {A} err.

Definition is_ok {A} (r : result A) : bool :=
  match r with Ok _ => true | Err _ => false end.

(** A decoded JSON document ([interface{}] after [json.Unmarshal]). *)
Inductive Value : Type :=
| VNull
| VBool (b : bool)
| VNumber (literal : string)
| VString (s : string)
| VArray (l : list Value)
| VObject (m : gmap string Value).

Record ARN := mkARN { AccountID : string }.

Record World := mkWorld {
  (* cmd.Flag("cluster").Changed *)
  flagClusterChanged : bool;
  (* r.GetClusterKey(), after an optional ocm.SetClusterKey *)
  GetClusterKey : option string -> string;
  (* r.FetchCluster() *)
  FetchCluster : Cluster.t;
  GetScheduledUpgrade :
    string -> result (option UpgradePolicy.t * option UpgradePolicyState.t);
  GetControlPlaneScheduledUpgrade :
    string -> result (option ControlPlaneUpgradePolicy.t);
  GetMachinePools : string -> result (list MachinePool.t);
  GetNodePools : string -> result (list NodePool.t);
  GetLimitedSupportReasons : string -> result (list LimitedSupportReason.t);
  GetConnectionURL : string;
  (* output.HasFlag() *)
  HasFlag : bool;
  (* output.Print(f): the text it writes to standard output, or its error *)
  outputPrint : gmap string Value -> result string;
  (* cmv1.MarshalCluster and json.Unmarshal *)
  MarshalCluster : Cluster.t -> result string;
  jsonUnmarshal : string -> result (gmap string Value);
  (* arn.Parse *)
  arnParse : string -> result ARN;
  (* t.Format(layout) *)
  timeFormat : time.Time -> string -> string;
  (* properties.CreatorARN and ocm.NetworkTypes[0] *)
  CreatorARN : string;
  NetworkTypes0 : string
}.

(** ** The process: output streams, early return and exit *)

(** The OCM client calls that can fail. *)
Inductive Call : Type :=
| CallGetScheduledUpgrade
| CallGetControlPlaneScheduledUpgrade
| CallGetMachinePools
| CallGetNodePools
| CallGetLimitedSupportReasons.

(** [stdout] holds what was written to standard output, one entry per
    write; [stderr] one entry per reporter message; [calls] is the log of
    the client calls made so far, each with whether it succeeded. *)
Record Process := mkProcess {
  stdout : list string;
  stderr : list string;
  calls : list (Call * bool)
}.

Definition start : Process := mkProcess [] [] [].

(** How a statement ends: it falls through with a value, the function
    returns, or the process exits with a status. *)
Inductive Flow (A : Type) : Type :=
| Next (a : A)
| Return
| Exit (code : Z).
Arguments Next {A} a.
Arguments Return {A}.
Arguments Exit {A} code.

Definition M (A : Type) : Type := Process -> Flow A * Process.

#[global] Instance M_ret : MRet M := fun A a p => (Next a, p).

#[global] Instance M_bind : MBind M := fun A B k m p =>
  match m p with
  | (Next a, p') => k a p'
  | (Return, p') => (Return, p')
  | (Exit code, p') => (Exit code, p')
  end.

Definition return_ {A} : M A := fun p => (Return, p).

Definition os_Exit {A} (code : Z) : M A := fun p => (Exit code, p).

(** Modelled from the spec: [r.Reporter.Errorf] belongs to pkg/reporter,
    which is not among the sources; the specification has it write a single
    error line to standard error.  The message is the format applied to
    its arguments. *)
Definition Errorf (message : string) : M unit := fun p =>
  (Next tt, mkProcess (stdout p) (stderr p ++ [message]) (calls p)).

(** [fmt.Print(s)]. *)
Definition fmt_Print (s : string) : M unit := fun p =>
  (Next tt, mkProcess (stdout p ++ [s]) (stderr p) (calls p)).

(** A call of the OCM client: it is logged and its result handed over. *)
Definition ocm {A} (c : Call) (r : result A) : M (result A) := fun p =>
  (Next r, mkProcess (stdout p) (stderr p) (calls p ++ [(c, is_ok r)])).

(** ** [formatCluster], [formatClusterHypershift] *)


Definition upgradeLayout : string := "2006-01-02 15:04 MST".

Definition formatCluster (w : World) (cluster : Cluster.t)
    (scheduledUpgrade : option UpgradePolicy.t)
    (upgradeState : option UpgradePolicyState.t) : result (gmap string Value) :=
  match MarshalCluster w cluster with
  | Err err => Err err
  | Ok b =>
      match jsonUnmarshal w b with
      | Err err => Err err
      | Ok ret =>
          if notNil scheduledUpgrade &&
             notNil upgradeState &&
             (0 <? Int.len (UpgradePolicy.Version scheduledUpgrade)) &&
             (0 <? Int.len (UpgradePolicyState.Value upgradeState))
          then
            let upgrade : gmap string Value := ∅ in
            let upgrade := <["version" := VString (UpgradePolicy.Version scheduledUpgrade)]> upgrade in
            let upgrade := <["state" := VString (UpgradePolicyState.Value upgradeState)]> upgrade in
            let upgrade :=
              <["nextRun" := VString (timeFormat w (UpgradePolicy.NextRun scheduledUpgrade) upgradeLayout)]> upgrade in
            Ok (<["scheduledUpgrade" := VObject upgrade]> ret)
          else Ok ret
      end
  end.

Definition formatClusterHypershift (w : World) (cluster : Cluster.t)
    (scheduledUpgrade : option ControlPlaneUpgradePolicy.t) : result (gmap string Value) :=
  match MarshalCluster w cluster with
  | Err err => Err err
  | Ok b =>
      match jsonUnmarshal w b with
      | Err err => Err err
      | Ok ret =>
          if notNil scheduledUpgrade &&
             notNil (ControlPlaneUpgradePolicy.State scheduledUpgrade) &&
             (0 <? Int.len (ControlPlaneUpgradePolicy.Version scheduledUpgrade)) &&
             (0 <? Int.len (UpgradePolicyState.Value (ControlPlaneUpgradePolicy.State scheduledUpgrade)))
          then
            let upgrade : gmap string Value := ∅ in
            let upgrade :=
              <["version" := VString (ControlPlaneUpgradePolicy.Version scheduledUpgrade)]> upgrade in
            let upgrade :=
              <["state" := VString (UpgradePolicyState.Value (ControlPlaneUpgradePolicy.State scheduledUpgrade))]> upgrade in
            let upgrade :=
              <["nextRun" := VString (timeFormat w (ControlPlaneUpgradePolicy.NextRun scheduledUpgrade) upgradeLayout)]> upgrade in
            Ok (<["scheduledUpgrade" := VObject upgrade]> ret)
          else Ok ret
      end
  end.

(** ** [run] *)

(** Lines 124-145: the phase shown next to the cluster state. *)
Definition clusterPhase (cluster : Cluster.t) : string :=
  let status := Cluster.Status cluster in
  let phase := "" in
  let phase :=
    if String.eqb (Cluster.State cluster) ClusterStateWaiting then "(Waiting for user action)"
    else if String.eqb (Cluster.State cluster) ClusterStatePending then "(Preparing account)"
    else if String.eqb (Cluster.State cluster) ClusterStateInstalling then
      let phase :=
        if negb (ClusterStatus.DNSReady status) then "(DNS setup in progress)" else phase in
      if nonEmpty (ClusterStatus.ProvisionErrorMessage status) then
        let errorCode := "" in
        let errorCode :=
          if nonEmpty (ClusterStatus.ProvisionErrorCode status)
          then ClusterStatus.ProvisionErrorCode status +:+ " - " else errorCode in
        "(" +:+ errorCode +:+ "Install is taking longer than expected)"
      else phase
    else phase in
  if nonEmpty (ClusterStatus.Description status)
  then "(" +:+ ClusterStatus.Description status +:+ ")"
  else phase.

(** Lines 147-150. *)
Definition clusterDNS (cluster : Cluster.t) : string :=
  if notNil (Cluster.Status cluster) && ClusterStatus.DNSReady (Cluster.Status cluster)
  then Cluster.Name cluster +:+ "." +:+ Cluster.BaseDomain cluster
  else "Not ready".

(** Lines 154-157. *)
Definition isPrivate (cluster : Cluster.t) : string :=
  if String.eqb (Cluster.Listening cluster) ListeningMethodInternal then "Yes" else "No".

(** Lines 161-167. *)
Definition networkType (w : World) (cluster : Cluster.t) : string :=
  if negb (String.eqb (Network.Type_ (Cluster.Network cluster)) (NetworkTypes0 w))
  then " - Type:                    " +:+ Network.Type_ (Cluster.Network cluster) +:+ LF
  else "".

(** Lines 183-223: "Print short cluster description". *)
Definition shortDescription (w : World) (cluster : Cluster.t) (clusterKey : string)
    (isHypershift : bool) (creatorARN : ARN)
    (machinePools : list MachinePool.t) (nodePools : list NodePool.t) : string :=
  LF +:+
  "Name:                       " +:+ Cluster.Name cluster +:+ LF +:+
  "ID:                         " +:+ Cluster.ID cluster +:+ LF +:+
  "External ID:                " +:+ Cluster.ExternalID cluster +:+ LF +:+
  "Control Plane:              " +:+ controlPlaneConfig cluster +:+ LF +:+
  "OpenShift Version:          " +:+ Cluster.OpenshiftVersion cluster +:+ LF +:+
  "Channel Group:              " +:+ Cluster.ChannelGroup cluster +:+ LF +:+
  "DNS:                        " +:+ clusterDNS cluster +:+ LF +:+
  "AWS Account:                " +:+ AccountID creatorARN +:+ LF +:+
  BillingAccount cluster isHypershift +:+
  "API URL:                    " +:+ Cluster.APIURL cluster +:+ LF +:+
  "Console URL:                " +:+ Cluster.ConsoleURL cluster +:+ LF +:+
  "Region:                     " +:+ Cluster.RegionID cluster +:+ LF +:+
  clusterMultiAZ cluster nodePools +:+
  clusterInfraConfig cluster clusterKey machinePools nodePools +:+
  "Network:" +:+ LF +:+
  networkType w cluster +:+
  " - Service CIDR:            " +:+ Network.ServiceCIDR (Cluster.Network cluster) +:+ LF +:+
  " - Machine CIDR:            " +:+ Network.MachineCIDR (Cluster.Network cluster) +:+ LF +:+
  " - Pod CIDR:                " +:+ Network.PodCIDR (Cluster.Network cluster) +:+ LF +:+
  " - Host Prefix:             /" +:+ fmt.d (Network.HostPrefix (Cluster.Network cluster)) +:+ LF.

(** Lines 229-246. *)
Definition proxySection (cluster : Cluster.t) (str : string) : string :=
  let proxy := Cluster.Proxy cluster in
  if notNil proxy && (nonEmpty (Proxy.HTTPProxy proxy) || nonEmpty (Proxy.HTTPSProxy proxy)) then
    let str := str +:+ "Proxy:" +:+ LF in
    let str :=
      if nonEmpty (Proxy.HTTPProxy proxy)
      then str +:+ " - HTTPProxy:               " +:+ Proxy.HTTPProxy proxy +:+ LF else str in
    let str :=
      if nonEmpty (Proxy.HTTPSProxy proxy)
      then str +:+ " - HTTPSProxy:              " +:+ Proxy.HTTPSProxy proxy +:+ LF else str in
    if nonEmpty (Proxy.NoProxy proxy)
    then str +:+ " - NoProxy:                 " +:+ Proxy.NoProxy proxy +:+ LF else str
  else str.

(** Lines 252-295. *)
Definition stsSection (cluster : Cluster.t) (str : string) : string :=
  let sts := Cluster.STS cluster in
  if nonEmpty (STS.RoleARN sts) then
    let str := str +:+ "STS Role ARN:               " +:+ STS.RoleARN sts +:+ LF in
    let str :=
      if nonEmpty (STS.ExternalID sts)
      then str +:+ "STS External ID:            " +:+ STS.ExternalID sts +:+ LF else str in
    let str :=
      if nonEmpty (STS.SupportRoleARN sts)
      then str +:+ "Support Role ARN:           " +:+ STS.SupportRoleARN sts +:+ LF else str in
    let str :=
      if nonEmpty (STS.MasterRoleARN sts) || nonEmpty (STS.WorkerRoleARN sts) then
        let str := str +:+ "Instance IAM Roles:" +:+ LF in
        let str :=
          if nonEmpty (STS.MasterRoleARN sts)
          then str +:+ " - Control plane:           " +:+ STS.MasterRoleARN sts +:+ LF else str in
        if nonEmpty (STS.WorkerRoleARN sts)
        then str +:+ " - Worker:                  " +:+ STS.WorkerRoleARN sts +:+ LF else str
      else str in
    let str :=
      if 0 <? Z.of_nat (length (STS.OperatorIAMRoles sts)) then
        let str := str +:+ "Operator IAM Roles:" +:+ LF in
        foldl (fun str operatorIAMRole => str +:+ " - " +:+ operatorIAMRole +:+ LF)
              str (STS.OperatorIAMRoles sts)
      else str in
    let awsManaged := if STS.ManagedPolicies sts then "Yes" else "No" in
    str +:+ "Managed Policies:           " +:+ awsManaged +:+ LF
  else str.

Definition createdLayout : string := "Jan _2 2006 15:04:05 MST".

(** Lines 322-328. *)
Definition managementType (cluster : Cluster.t) : string :=
  let oidc := STS.OidcConfig (Cluster.STS cluster) in
  if notNil oidc then (if OidcConfig.Managed oidc then "Managed" else "Unmanaged")
  else "Classic".

(** Lines 225-333: the sections between the short description and the
    scheduled upgrade. *)
Definition detailSections (w : World) (cluster : Cluster.t) (detailsPage : string)
    (str : string) : string :=
  let str :=
    if nonEmpty (Cluster.InfraID cluster)
    then str +:+ "Infra ID:                   " +:+ Cluster.InfraID cluster +:+ LF else str in
  let str := proxySection cluster str in
  let str :=
    if nonEmpty (Cluster.AdditionalTrustBundle cluster)
    then str +:+ "Additional trust bundle:    REDACTED" +:+ LF else str in
  let str := stsSection cluster str in
  let str :=
    str +:+
    "State:                      " +:+ Cluster.State cluster +:+ " " +:+ clusterPhase cluster +:+ LF +:+
    "Private:                    " +:+ isPrivate cluster +:+ LF +:+
    "Created:                    " +:+
      timeFormat w (Cluster.CreationTimestamp cluster) createdLayout +:+ LF in
  let str :=
    if Cluster.DisableUserWorkloadMonitoring cluster
    then str +:+ "User Workload Monitoring:   " +:+
         getUseworkloadMonitoring (Cluster.DisableUserWorkloadMonitoring cluster) +:+ LF
    else str in
  let str :=
    if Cluster.FIPS cluster
    then str +:+ "FIPS mode:                  " +:+ "enabled" +:+ LF else str in
  let str :=
    if nonEmpty detailsPage
    then str +:+ "Details Page:               " +:+ detailsPage +:+
         Cluster.SubscriptionID cluster +:+ LF
    else str in
  if nonEmpty (STS.OIDCEndpointURL (Cluster.STS cluster))
  then str +:+ "OIDC Endpoint URL:          " +:+ STS.OIDCEndpointURL (Cluster.STS cluster) +:+
       " (" +:+ managementType cluster +:+ ")" +:+ LF
  else str.

(** Lines 334-354: the scheduled upgrade of the text report. *)
Definition scheduledUpgradeSection (w : World) (isHypershift : bool)
    (scheduledUpgrade : option UpgradePolicy.t)
    (upgradeState : option UpgradePolicyState.t)
    (controlPlaneScheduledUpgrade : option ControlPlaneUpgradePolicy.t)
    (str : string) : string :=
  if negb isHypershift then
    if notNil scheduledUpgrade then
      str +:+
      "Scheduled Upgrade:          " +:+ UpgradePolicyState.Value upgradeState +:+ " " +:+
      UpgradePolicy.Version scheduledUpgrade +:+ " on " +:+
      timeFormat w (UpgradePolicy.NextRun scheduledUpgrade) upgradeLayout +:+ LF
    else str
  else
    if notNil controlPlaneScheduledUpgrade then
      str +:+
      "Scheduled Upgrade:          " +:+
      UpgradePolicyState.Value (ControlPlaneUpgradePolicy.State controlPlaneScheduledUpgrade) +:+ " " +:+
      ControlPlaneUpgradePolicy.Version controlPlaneScheduledUpgrade +:+ " on " +:+
      timeFormat w (ControlPlaneUpgradePolicy.NextRun controlPlaneScheduledUpgrade) upgradeLayout +:+ LF
    else str.

(** Lines 356-364. *)
Definition provisionErrorSection (cluster : Cluster.t) (str : string) : string :=
  if String.eqb (ClusterStatus.State (Cluster.Status cluster)) ClusterStateError then
    str +:+
    "Provisioning Error Code:    " +:+ ClusterStatus.ProvisionErrorCode (Cluster.Status cluster) +:+ LF +:+
    "Provisioning Error Message: " +:+ ClusterStatus.ProvisionErrorMessage (Cluster.Status cluster) +:+ LF
  else str.

(** Lines 371-380: the limited-support reasons and the closing line feed. *)
Definition limitedSupportSection (limitedSupportReasons : list LimitedSupportReason.t)
    (str : string) : string :=
  let str :=
    if 0 <? Z.of_nat (length limitedSupportReasons)
    then str +:+ "Limited Support:" +:+ LF else str in
  let str :=
    foldl
      (fun str reason =>
         str +:+
         " - Summary:                 " +:+ LimitedSupportReason.Summary reason +:+ LF +:+
         " - Details:                 " +:+ LimitedSupportReason.Details reason +:+ LF)
      str limitedSupportReasons in
  str +:+ LF.

(** Lines 118-383: the text report, entered once the scheduled upgrade has
    been fetched and no output flag was given. *)
Definition describeText (w : World) (cluster : Cluster.t) (clusterKey : string)
    (isHypershift : bool)
    (scheduledUpgrade : option UpgradePolicy.t)
    (upgradeState : option UpgradePolicyState.t)
    (controlPlaneScheduledUpgrade : option ControlPlaneUpgradePolicy.t) : M unit :=
  match arnParse w (default "" (Cluster.Properties cluster !! CreatorARN w)) with
  | Err _ =>
      Errorf ("Failed to parse creator ARN for cluster '" +:+ clusterKey +:+ "'");;
      os_Exit 1
  | Ok creatorARN =>
      let detailsPage := getDetailsLink (GetConnectionURL w) in
      '(machinePools, nodePools) ←
        (if isHypershift then
           r ← ocm CallGetNodePools (GetNodePools w (Cluster.ID cluster));
           match r with
           | Ok nodePools => mret ([], nodePools)
           | Err err =>
               Errorf ("Failed to get machine pools for cluster '" +:+ clusterKey +:+ "': " +:+ err);;
               os_Exit 1
           end
         else
           r ← ocm CallGetMachinePools (GetMachinePools w (Cluster.ID cluster));
           match r with
           | Ok machinePools => mret (machinePools, [])
           | Err err =>
               Errorf ("Failed to get machine pools for cluster '" +:+ clusterKey +:+ "': " +:+ err);;
               os_Exit 1
           end);
      let str :=
        shortDescription w cluster clusterKey isHypershift creatorARN machinePools nodePools in
      let str := detailSections w cluster detailsPage str in
      let str :=
        scheduledUpgradeSection w isHypershift scheduledUpgrade upgradeState
                                controlPlaneScheduledUpgrade str in
      let str := provisionErrorSection cluster str in
      r ← ocm CallGetLimitedSupportReasons (GetLimitedSupportReasons w (Cluster.ID cluster));
      match r with
      | Err err =>
          Errorf ("Failed to get limited support reasons for cluster '" +:+
                  Cluster.ID cluster +:+ "': " +:+ err);;
          os_Exit 1
      | Ok limitedSupportReasons =>
          let str := limitedSupportSection limitedSupportReasons str in
          fmt_Print str
      end
  end.

(** The structured output of both branches: print the map and return. *)
Definition printStructured (w : World) (f : result (gmap string Value)) : M unit :=
  match f with
  | Err err => Errorf err;; os_Exit 1
  | Ok f =>
      match outputPrint w f with
      | Err err => Errorf err;; os_Exit 1
      | Ok text => fmt_Print text;; return_
      end
  end.

Definition run (w : World) (argv : list string) : M unit :=
  let clusterKey :=
    GetClusterKey w
      match argv with
      | [key] => if negb (flagClusterChanged w) then Some key else None
      | _ => None
      end in
  let cluster := FetchCluster w in
  let isHypershift := Cluster.HypershiftEnabled cluster in
  if negb isHypershift then
    r ← ocm CallGetScheduledUpgrade (GetScheduledUpgrade w (Cluster.ID cluster));
    match r with
    | Err err =>
        Errorf ("Failed to get scheduled upgrades for cluster '" +:+ clusterKey +:+ "': " +:+ err);;
        os_Exit 1
    | Ok (scheduledUpgrade, upgradeState) =>
        (if HasFlag w
         then printStructured w (formatCluster w cluster scheduledUpgrade upgradeState)
         else mret tt);;
        describeText w cluster clusterKey isHypershift scheduledUpgrade upgradeState None
    end
  else
    r ← ocm CallGetControlPlaneScheduledUpgrade
          (GetControlPlaneScheduledUpgrade w (Cluster.ID cluster));
    match r with
    | Err err =>
        Errorf ("Failed to get scheduled upgrades for cluster '" +:+ clusterKey +:+ "': " +:+ err);;
        os_Exit 1
    | Ok controlPlaneScheduledUpgrade =>
        (if HasFlag w
         then printStructured w (formatClusterHypershift w cluster controlPlaneScheduledUpgrade)
         else mret tt);;
        describeText w cluster clusterKey isHypershift None None controlPlaneScheduledUpgrade
    end.

(** The process after [run]: how it ended and what it wrote. *)
Definition execute (w : World) (argv : list string) : Flow unit * Process :=
  run w argv start.

(** The exit status of the process: [os.Exit] gives its code, a function
    that returns gives 0. *)
Definition exitCode {A} (f : Flow A) : Z :=
  match f with Exit code => code | _ => 0 end.

(** ** The specification's vocabulary

    The definitions below follow the words of the specification; the
    theorems compare them with the code above. *)

(** "the number of distinct availability zones across the node pools" *)
Definition distinctZones (nodePools : list NodePool.t) : nat :=
  length (remove_dups (map NodePool.AvailabilityZone nodePools)).

(** The sum of a list of mathematical integers. *)
Definition sumZ (l : list Z) : Z := foldr Z.add 0 l.

(** "autoscale min if the pool has an autoscale config, else its fixed
    replica count", and the same with max. *)
Definition nodePoolMin (p : NodePool.t) : Z :=
  match NodePool.Autoscaling p with
  | Some a => NodePoolAutoscaling.MinReplica a
  | None => NodePool.Replicas p
  end.

Definition nodePoolMax (p : NodePool.t) : Z :=
  match NodePool.Autoscaling p with
  | Some a => NodePoolAutoscaling.MaxReplica a
  | None => NodePool.Replicas p
  end.

(** "each pool's reported current-replica count, contributing 0 for a pool
    whose status is absent" *)
Definition nodePoolCurrent (p : NodePool.t) : Z :=
  match NodePool.Status p with
  | Some s => NodePoolStatus.CurrentReplicas s
  | None => 0
  end.

Definition machinePoolMin (p : MachinePool.t) : Z :=
  match MachinePool.Autoscaling p with
  | Some a => MachinePoolAutoscaling.MinReplicas a
  | None => MachinePool.Replicas p
  end.

Definition machinePoolMax (p : MachinePool.t) : Z :=
  match MachinePool.Autoscaling p with
  | Some a => MachinePoolAutoscaling.MaxReplicas a
  | None => MachinePool.Replicas p
  end.

(** "the cluster-level compute count (autoscale {min,max} if the cluster has
    an autoscale-compute config, else the fixed compute count)" *)
Definition clusterComputeMin (cluster : Cluster.t) : Z :=
  match ClusterNodes.AutoscaleCompute (Cluster.Nodes cluster) with
  | Some a => MachinePoolAutoscaling.MinReplicas a
  | None => ClusterNodes.Compute (Cluster.Nodes cluster)
  end.

Definition clusterComputeMax (cluster : Cluster.t) : Z :=
  match ClusterNodes.AutoscaleCompute (Cluster.Nodes cluster) with
  | Some a => MachinePoolAutoscaling.MaxReplicas a
  | None => ClusterNodes.Compute (Cluster.Nodes cluster)
  end.

(** "every pool that has an autoscale config satisfies min <= max" *)
Definition nodePoolOrdered (p : NodePool.t) : Prop :=
  forall a, NodePool.Autoscaling p = Some a ->
            NodePoolAutoscaling.MinReplica a <= NodePoolAutoscaling.MaxReplica a.

Definition machinePoolOrdered (p : MachinePool.t) : Prop :=
  forall a, MachinePool.Autoscaling p = Some a ->
            MachinePoolAutoscaling.MinReplicas a <= MachinePoolAutoscaling.MaxReplicas a.

Definition clusterComputeOrdered (cluster : Cluster.t) : Prop :=
  forall a, ClusterNodes.AutoscaleCompute (Cluster.Nodes cluster) = Some a ->
            MachinePoolAutoscaling.MinReplicas a <= MachinePoolAutoscaling.MaxReplicas a.

(** "one summary/detail pair per reason" *)
Definition reasonPair (reason : LimitedSupportReason.t) : string :=
  " - Summary:                 " +:+ LimitedSupportReason.Summary reason +:+ LF +:+
  " - Details:                 " +:+ LimitedSupportReason.Details reason +:+ LF.

(** The concatenation of a list of strings. *)
Definition concatStrings (l : list string) : string := foldr String.append "" l.

(** "a header line only if the list is non-empty, followed by one
    summary/detail pair per reason, in the order received" *)
Definition limitedSupportText (reasons : list LimitedSupportReason.t) : string :=
  match reasons with
  | [] => ""
  | _ :: _ => "Limited Support:" +:+ LF +:+ concatStrings (map reasonPair reasons)
  end.

(** The cluster with its [Nodes()] replaced. *)
Definition withNodes (c : Cluster.t) (nodes : ClusterNodes.t) : Cluster.t :=
  Cluster.mk (Cluster.HypershiftEnabled c) (Cluster.ID c) (Cluster.ExternalID c)
    (Cluster.Name c) (Cluster.OpenshiftVersion c) (Cluster.ChannelGroup c)
    (Cluster.Properties c) (Cluster.State c) (Cluster.Status c) (Cluster.BaseDomain c)
    (Cluster.Listening c) (Cluster.APIURL c) (Cluster.ConsoleURL c) (Cluster.RegionID c)
    (Cluster.MultiAZ c) (Cluster.NodePools c) nodes (Cluster.Network c)
    (Cluster.InfraID c) (Cluster.Proxy c) (Cluster.AdditionalTrustBundle c)
    (Cluster.STS c) (Cluster.BillingAccountID c) (Cluster.CreationTimestamp c)
    (Cluster.DisableUserWorkloadMonitoring c) (Cluster.FIPS c) (Cluster.SubscriptionID c).

(** The serialized cluster as [formatCluster] decodes it. *)
Definition decodeCluster (w : World) (cluster : Cluster.t) : result (gmap string Value) :=
  match MarshalCluster w cluster with
  | Err err => Err err
  | Ok b => jsonUnmarshal w b
  end.

(** The [scheduledUpgrade] object of the structured output. *)
Definition upgradeObject (version state nextRun : string) : Value :=
  VObject (<["nextRun" := VString nextRun]>
            (<["state" := VString state]>
              (<["version" := VString version]> ∅))).

(** "state and version are non-empty/non-nil", for the classic pair of
    policy and state and for the hosted policy. *)
Definition classicUpgradeComplete (scheduledUpgrade : option UpgradePolicy.t)
    (upgradeState : option UpgradePolicyState.t) : Prop :=
  exists p s, scheduledUpgrade = Some p /\ upgradeState = Some s /\
              UpgradePolicy.version p <> "" /\ UpgradePolicyState.value s <> "".

Definition hostedUpgradeComplete (scheduledUpgrade : option ControlPlaneUpgradePolicy.t) : Prop :=
  exists p s, scheduledUpgrade = Some p /\ ControlPlaneUpgradePolicy.state p = Some s /\
              ControlPlaneUpgradePolicy.version p <> "" /\ UpgradePolicyState.value s <> "".

(** The text report as it stands when the limited-support reasons are
    fetched (the value of [str] at line 366). *)
Definition reportBody (w : World) (clusterKey : string) (creatorARN : ARN)
    (machinePools : list MachinePool.t) (nodePools : list NodePool.t)
    (scheduledUpgrade : option UpgradePolicy.t)
    (upgradeState : option UpgradePolicyState.t)
    (controlPlaneScheduledUpgrade : option ControlPlaneUpgradePolicy.t) : string :=
  let cluster := FetchCluster w in
  let isHypershift := Cluster.HypershiftEnabled cluster in
  provisionErrorSection cluster
    (scheduledUpgradeSection w isHypershift scheduledUpgrade upgradeState
       controlPlaneScheduledUpgrade
       (detailSections w cluster (getDetailsLink (GetConnectionURL w))
          (shortDescription w cluster clusterKey isHypershift creatorARN
             machinePools nodePools))).

(** The line of the scheduled upgrade in the text report. *)
Definition upgradeLine (state version nextRun : string) : string :=
  "Scheduled Upgrade:          " +:+ state +:+ " " +:+ version +:+ " on " +:+ nextRun +:+ LF.

(** The calls of the OCM client that the claims on errors are about. *)
Definition failed (c : Call) (p : Process) : Prop := In (c, false) (calls p).

(** ** Sample data *)

Module Sample.
(** A cluster that is empty but for its shape, its id and its own node-pool field. *)
Definition cluster (hypershift : bool) (nodePools : option (list NodePool.t))
    (nodes : ClusterNodes.t) : Cluster.t :=
  Cluster.mk hypershift "c1" "" "mycluster" "4.12.0" "stable" ∅ "ready" None "" "" "" "" "us-east-1"
    false nodePools nodes (Network.mk "OVNKubernetes" "" "" "" 23) "" None ""
    (STS.mk "" "" "" "" "" [] false None "") "" time.zero false false "".

Definition noNodes : ClusterNodes.t := ClusterNodes.mk None 0 0 0.

(** A stand-in for [Format]: the layout followed by the seconds. *)
Definition format (t : time.Time) (layout : string) : string :=
  layout +:+ "@" +:+ fmt.d (time.unixSeconds t).

(** A world around a cluster, given the answers of the OCM client. *)
Definition world (c : Cluster.t) (structured : bool)
    (upgrade : result (option UpgradePolicy.t * option UpgradePolicyState.t))
    (controlPlaneUpgrade : result (option ControlPlaneUpgradePolicy.t))
    (machinePools : result (list MachinePool.t))
    (nodePools : result (list NodePool.t))
    (reasons : result (list LimitedSupportReason.t)) : World :=
  mkWorld false (fun _ => "mycluster") c
    (fun _ => upgrade) (fun _ => controlPlaneUpgrade)
    (fun _ => machinePools) (fun _ => nodePools) (fun _ => reasons)
    ProductionEnv structured
    (fun _ => Ok "{}") (fun _ => Ok "{}") (fun _ => Ok ∅)
    (fun _ => Ok (mkARN "123456789012"))
    format "rosa_creator_arn" "OVNKubernetes".

Definition az (zone : string) : NodePool.t := NodePool.mk zone None 1 None.
End Sample.

(** ** Further vocabulary *)

(** The zones of the node pools, in the order of the list. *)
Definition zones (nodePools : list NodePool.t) : list string :=
  map NodePool.AvailabilityZone nodePools.

(** A pool, or the cluster, whose autoscale config has two different bounds. *)
Definition nodePoolAutoscales (p : NodePool.t) : Prop :=
  exists a, NodePool.Autoscaling p = Some a /\
            NodePoolAutoscaling.MinReplica a <> NodePoolAutoscaling.MaxReplica a.

Definition machinePoolAutoscales (p : MachinePool.t) : Prop :=
  exists a, MachinePool.Autoscaling p = Some a /\
            MachinePoolAutoscaling.MinReplicas a <> MachinePoolAutoscaling.MaxReplicas a.

Definition clusterComputeAutoscales (c : Cluster.t) : Prop :=
  exists a, ClusterNodes.AutoscaleCompute (Cluster.Nodes c) = Some a /\
            MachinePoolAutoscaling.MinReplicas a <> MachinePoolAutoscaling.MaxReplicas a.

(** Two triples of counts added in Go's [int]. *)
Definition addCounts (x y : Z * Z * Z) : Z * Z * Z :=
  (Int.add x.1.1 y.1.1, Int.add x.1.2 y.1.2, Int.add x.2 y.2).

(** The OCM calls of a run, in the order of the source, by cluster shape. *)
Definition callSequence (isHypershift : bool) : list Call :=
  if isHypershift
  then [CallGetControlPlaneScheduledUpgrade; CallGetNodePools; CallGetLimitedSupportReasons]
  else [CallGetScheduledUpgrade; CallGetMachinePools; CallGetLimitedSupportReasons].

(** The cluster with its [AdditionalTrustBundle()] replaced. *)
Definition withAdditionalTrustBundle (c : Cluster.t) (bundle : string) : Cluster.t :=
  Cluster.mk (Cluster.HypershiftEnabled c) (Cluster.ID c) (Cluster.ExternalID c)
    (Cluster.Name c) (Cluster.OpenshiftVersion c) (Cluster.ChannelGroup c)
    (Cluster.Properties c) (Cluster.State c) (Cluster.Status c) (Cluster.BaseDomain c)
    (Cluster.Listening c) (Cluster.APIURL c) (Cluster.ConsoleURL c) (Cluster.RegionID c)
    (Cluster.MultiAZ c) (Cluster.NodePools c) (Cluster.Nodes c) (Cluster.Network c)
    (Cluster.InfraID c) (Cluster.Proxy c) bundle
    (Cluster.STS c) (Cluster.BillingAccountID c) (Cluster.CreationTimestamp c)
    (Cluster.DisableUserWorkloadMonitoring c) (Cluster.FIPS c) (Cluster.SubscriptionID c).

(** The world in which [r.FetchCluster()] answers another cluster. *)
Definition withCluster (w : World) (c : Cluster.t) : World :=
  mkWorld (flagClusterChanged w) (GetClusterKey w) c
    (GetScheduledUpgrade w) (GetControlPlaneScheduledUpgrade w)
    (GetMachinePools w) (GetNodePools w) (GetLimitedSupportReasons w)
    (GetConnectionURL w) (HasFlag w) (outputPrint w) (MarshalCluster w) (jsonUnmarshal w)
    (arnParse w) (timeFormat w) (CreatorARN w) (NetworkTypes0 w).

(** The world with other answers of the codec, of the printer and of
    [arn.Parse]. *)
Definition withCodec (w : World)
    (print : gmap string Value -> result string)
    (marshal : Cluster.t -> result string)
    (unmarshal : string -> result (gmap string Value))
    (parse : string -> result ARN) : World :=
  mkWorld (flagClusterChanged w) (GetClusterKey w) (FetchCluster w)
    (GetScheduledUpgrade w) (GetControlPlaneScheduledUpgrade w)
    (GetMachinePools w) (GetNodePools w) (GetLimitedSupportReasons w)
    (GetConnectionURL w) (HasFlag w) print marshal unmarshal
    parse (timeFormat w) (CreatorARN w) (NetworkTypes0 w).

(** The cluster key of a run: the single argument, unless the flag was given. *)
Definition clusterKeyOf (w : World) (argv : list string) : string :=
  GetClusterKey w
    match argv with
    | [key] => if negb (flagClusterChanged w) then Some key else None
    | _ => None
    end.

(** Whether the fetch of the scheduled upgrade of the cluster's shape succeeds. *)
Definition upgradeFetched (w : World) : bool :=
  if Cluster.HypershiftEnabled (FetchCluster w)
  then is_ok (GetControlPlaneScheduledUpgrade w (Cluster.ID (FetchCluster w)))
  else is_ok (GetScheduledUpgrade w (Cluster.ID (FetchCluster w))).



(** The text report as it stands before the scheduled upgrade (the value
    of [str] at line 334). *)
Definition reportBeforeUpgrade (w : World) (clusterKey : string) (creatorARN : ARN)
    (machinePools : list MachinePool.t) (nodePools : list NodePool.t) : string :=
  let cluster := FetchCluster w in
  detailSections w cluster (getDetailsLink (GetConnectionURL w))
    (shortDescription w cluster clusterKey (Cluster.HypershiftEnabled cluster) creatorARN
       machinePools nodePools).

(** * Properties *)

(** ** Strings *)

(** [simpl] computes an append on a literal prefix. *)
#[local] Arguments String.append !_ _ / : simpl nomatch.

Section StringFacts.
Implicit Types s t u : string.

Lemma append_assoc s t u : (s +:+ t) +:+ u = s +:+ (t +:+ u).
Proof. induction s as [|c s IH]; simpl; [reflexivity | f_equal; exact IH]. Qed.

Lemma append_empty_r s : s +:+ "" = s.
Proof. induction s as [|c s IH]; simpl; [reflexivity | f_equal; exact IH]. Qed.

Lemma append_length s t :
  String.length (s +:+ t) = (String.length s + String.length t)%nat.
Proof. induction s as [|c s IH]; simpl; [reflexivity | f_equal; exact IH]. Qed.

Lemma append_cancel_l s t u : s +:+ t = s +:+ u -> t = u.
Proof. apply String.app_inj. Qed.


(** Appending text leaves the string as it was only if the text is empty. *)
Lemma append_fixpoint s t : s +:+ t = s <-> t = "".
Proof.
  split; [| intros ->; apply append_empty_r].
  intros H. apply (f_equal String.length) in H. rewrite append_length in H.
  destruct t; [reflexivity | simpl in H; lia].
Qed.

Lemma nonEmpty_true s : nonEmpty s = true <-> s <> "".
Proof.
  unfold nonEmpty. destruct (String.eqb_spec s ""); simpl; split; congruence.
Qed.

Lemma len_positive s : (0 <? Int.len s) = true <-> s <> "".
Proof.
  unfold Int.len. destruct s as [|c s]; simpl String.length.
  - split; [discriminate | congruence].
  - split; [discriminate | intros _; apply Z.ltb_lt; lia].
Qed.
End StringFacts.

(** ** Go integers *)

Section IntFacts.
Lemma wrap_in_range z : Int.in_range z -> Int.wrap z = z.
Proof.
  unfold Int.in_range, Int.min_int, Int.max_int, Int.wrap. intros H.
  rewrite Z.mod_small; lia.
Qed.

Lemma wrap_range z : Int.in_range (Int.wrap z).
Proof.
  unfold Int.in_range, Int.min_int, Int.max_int, Int.wrap.
  pose proof (Z.mod_pos_bound (z + 2 ^ 63) (2 ^ 64)). lia.
Qed.

Lemma wrap_zero : Int.wrap 0 = 0.
Proof. reflexivity. Qed.

(** Adding to a stored sum is storing the sum. *)
Lemma add_wrap a b : Int.add (Int.wrap a) b = Int.wrap (a + b).
Proof.
  unfold Int.add, Int.wrap. f_equal.
  replace ((a + 2 ^ 63) mod 2 ^ 64 - 2 ^ 63 + b + 2 ^ 63)
    with ((a + 2 ^ 63) mod 2 ^ 64 + b) by lia.
  rewrite Zplus_mod_idemp_l. f_equal. lia.
Qed.
End IntFacts.

(** ** The link resolver *)

(** C8: [getDetailsLink] answers the stage prefix exactly on the stage
    environment URL, the production prefix exactly on the production
    environment URL, and the empty string on every other input; the empty
    input and the two URLs with a trailing slash are among the others. *)
Theorem getDetailsLink_exact_match (environment : string) :
  (getDetailsLink environment = StageURL <-> environment = StageEnv) /\
  (getDetailsLink environment = ProductionURL <-> environment = ProductionEnv) /\
  (getDetailsLink environment = "" <->
     environment <> StageEnv /\ environment <> ProductionEnv) /\
  getDetailsLink "" = "" /\
  getDetailsLink (StageEnv +:+ "/") = "" /\
  getDetailsLink (ProductionEnv +:+ "/") = "".
Proof.
  unfold getDetailsLink.
  destruct (String.eqb_spec environment StageEnv) as [-> | Hs].
  - repeat split; try reflexivity; intros; try discriminate; tauto.
  - destruct (String.eqb_spec environment ProductionEnv) as [-> | Hp].
    + repeat split; try reflexivity; intros; try discriminate; tauto.
    + repeat split; try reflexivity; intros; try discriminate; tauto.
Qed.

(** ** The Multi-AZ resolver *)

Section MultiAZ.
Implicit Types (pools : list NodePool.t) (c : Cluster.t).

Lemma multiAzMap_fold pools (acc : gset string) :
  foldl (fun m nodePool => {[ NodePool.AvailabilityZone nodePool ]} ∪ m) acc pools
  = list_to_set (map NodePool.AvailabilityZone pools) ∪ acc.
Proof.
  revert acc. induction pools as [|p pools IH]; intros acc; simpl.
  - now rewrite (left_id_L ∅ (∪)).
  - rewrite IH, (assoc_L (∪)).
    now rewrite (comm_L (∪) (list_to_set (map NodePool.AvailabilityZone pools))).
Qed.

(** The map of the loop has one key per distinct zone. *)
Lemma multiAzMap_size pools : size (multiAzMap pools) = distinctZones pools.
Proof.
  unfold multiAzMap, distinctZones. rewrite multiAzMap_fold.
  rewrite (right_id_L ∅ (∪)).
  rewrite <- (size_list_to_set (C := gset string)) by apply NoDup_remove_dups.
  f_equal. apply set_eq. intros x.
  rewrite !elem_of_list_to_set, elem_of_remove_dups. reflexivity.
Qed.


Lemma dataPlane_cases c pools :
  dataPlaneAvailability c pools =
    match Cluster.NodePools c with
    | Some _ => if decide (1 < distinctZones pools)%nat then "MultiAZ" else "SingleAZ"
    | None => "SingleAZ"
    end.
Proof.
  unfold dataPlaneAvailability. rewrite multiAzMap_size.
  destruct (Cluster.NodePools c); [| reflexivity].
  destruct (Z.ltb_spec 1 (Z.of_nat (distinctZones pools))); case_decide; (reflexivity || lia).
Qed.
End MultiAZ.




(** C10: for a hosted cluster whose own node-pool field is nil the data
    plane is reported "SingleAZ" whatever node pools are passed; the number
    of distinct zones decides only when that field is non-nil. *)
Theorem clusterMultiAZ_nil_node_pools (c : Cluster.t) :
  Cluster.HypershiftEnabled c = true ->
  (Cluster.NodePools c = None ->
   forall pools,
     clusterMultiAZ c pools =
       "Availability:" +:+ LF +:+
       " - Control Plane:           MultiAZ" +:+ LF +:+
       " - Data Plane:              SingleAZ" +:+ LF) /\
  (Cluster.NodePools c <> None ->
   forall pools,
     clusterMultiAZ c pools =
       "Availability:" +:+ LF +:+
       " - Control Plane:           MultiAZ" +:+ LF +:+
       " - Data Plane:              " +:+
       (if decide (1 < distinctZones pools)%nat then "MultiAZ" else "SingleAZ") +:+ LF).
Proof.
  intros Hh. unfold clusterMultiAZ. rewrite Hh.
  split; intros Hn pools; rewrite dataPlane_cases;
    destruct (Cluster.NodePools c); try congruence; reflexivity.
Qed.

Lemma clusterMultiAZ_nil_node_pools_witness :
  clusterMultiAZ (Sample.cluster true None Sample.noNodes)
    [Sample.az "us-east-1a"; Sample.az "us-east-1b"; Sample.az "us-east-1c"]
  = "Availability:" +:+ LF +:+
    " - Control Plane:           MultiAZ" +:+ LF +:+
    " - Data Plane:              SingleAZ" +:+ LF.
Proof.
  exact (proj1 (clusterMultiAZ_nil_node_pools
                  (Sample.cluster true None Sample.noNodes) eq_refl) eq_refl _).
Defined.

(** ** The node count aggregator *)

Section NodeCounts.
Implicit Types (pools : list NodePool.t) (mpools : list MachinePool.t) (c : Cluster.t).

Lemma sumZ_cons x (l : list Z) : sumZ (x :: l) = x + sumZ l.
Proof. reflexivity. Qed.

Lemma hosted_loop pools a b k :
  foldl accumulateNodePool (Int.wrap a, Int.wrap b, Int.wrap k) pools
  = (Int.wrap (a + sumZ (map nodePoolMin pools)),
     Int.wrap (b + sumZ (map nodePoolMax pools)),
     Int.wrap (k + sumZ (map nodePoolCurrent pools))).
Proof.
  revert a b k. induction pools as [|p pools IH]; intros a b k.
  - simpl. now rewrite !Z.add_0_r.
  - cbn [foldl map]. rewrite !sumZ_cons.
    unfold accumulateNodePool at 2, nodePoolMin at 1, nodePoolMax at 1, nodePoolCurrent at 1.
    destruct (NodePool.Autoscaling p) as [au|], (NodePool.Status p) as [st|];
      rewrite ?add_wrap, IH, ?Z.add_assoc, ?Z.add_0_r; reflexivity.
Qed.

Lemma hostedNodeCounts_sums pools :
  hostedNodeCounts pools
  = (Int.wrap (sumZ (map nodePoolMin pools)),
     Int.wrap (sumZ (map nodePoolMax pools)),
     Int.wrap (sumZ (map nodePoolCurrent pools))).
Proof.
  unfold hostedNodeCounts.
  change (0, 0, 0) with (Int.wrap 0, Int.wrap 0, Int.wrap 0).
  now rewrite hosted_loop.
Qed.

Lemma machine_loop mpools a b :
  foldl accumulateMachinePool (Int.wrap a, Int.wrap b) mpools
  = (Int.wrap (a + sumZ (map machinePoolMin mpools)),
     Int.wrap (b + sumZ (map machinePoolMax mpools))).
Proof.
  revert a b. induction mpools as [|p mpools IH]; intros a b.
  - simpl. now rewrite !Z.add_0_r.
  - cbn [foldl map]. rewrite !sumZ_cons.
    unfold accumulateMachinePool at 2, machinePoolMin at 1, machinePoolMax at 1.
    destruct (MachinePool.Autoscaling p) as [au|];
      rewrite ?add_wrap, IH, ?Z.add_assoc; reflexivity.
Qed.

Lemma classicNodeCounts_sums c mpools :
  classicNodeCounts c mpools
  = (Int.wrap (sumZ (map machinePoolMin mpools) + clusterComputeMin c),
     Int.wrap (sumZ (map machinePoolMax mpools) + clusterComputeMax c)).
Proof.
  unfold classicNodeCounts, machinePoolCounts, clusterComputeMin, clusterComputeMax.
  change (0, 0) with (Int.wrap 0, Int.wrap 0). rewrite machine_loop.
  destruct (ClusterNodes.AutoscaleCompute (Cluster.Nodes c)); now rewrite !add_wrap.
Qed.

(** Sums of ordered contributions are ordered. *)
Lemma sumZ_le {A} (f g : A -> Z) (l : list A) :
  Forall (fun x => f x <= g x) l -> sumZ (map f l) <= sumZ (map g l).
Proof. induction 1; simpl; lia. Qed.

Lemma sumZ_eq {A} (f g : A -> Z) (l : list A) :
  Forall (fun x => f x = g x) l -> sumZ (map f l) = sumZ (map g l).
Proof. induction 1; simpl; lia. Qed.
End NodeCounts.

(** Two fixed node pools whose replica counts add up to one more than an
    [int] holds: the counts are not the sums. *)
Lemma hostedNodeCounts_sum_counterexample :
  let pools := [NodePool.mk "us-east-1a" None Int.max_int None;
                NodePool.mk "us-east-1b" None 1 None] in
  sumZ (map nodePoolMin pools) = 2 ^ 63 /\
  sumZ (map nodePoolMax pools) = 2 ^ 63 /\
  hostedNodeCounts pools = (- 2 ^ 63, - 2 ^ 63, 0) /\
  (hostedNodeCounts pools).1.1 <> sumZ (map nodePoolMin pools).
Proof. cbv zeta. repeat split; try reflexivity. vm_compute. discriminate. Qed.

(** C3, amended: in the hosted branch [minNodes] is the sum over the node
    pools of the autoscale minimum (or of the fixed replica count of a pool
    without autoscale config), [maxNodes] the same with the maximum, and
    [currentNodes] the sum of the current replicas, a pool without status
    counting 0, each sum taken in Go's 64-bit [int] (it wraps around); they
    are the mathematical sums whenever these fit an [int]; no pool gives
    three zeros. *)
Theorem hostedNodeCounts_aggregates (pools : list NodePool.t) :
  hostedNodeCounts pools
  = (Int.wrap (sumZ (map nodePoolMin pools)),
     Int.wrap (sumZ (map nodePoolMax pools)),
     Int.wrap (sumZ (map nodePoolCurrent pools))) /\
  (Int.in_range (sumZ (map nodePoolMin pools)) ->
   Int.in_range (sumZ (map nodePoolMax pools)) ->
   Int.in_range (sumZ (map nodePoolCurrent pools)) ->
   hostedNodeCounts pools
   = (sumZ (map nodePoolMin pools), sumZ (map nodePoolMax pools),
      sumZ (map nodePoolCurrent pools))) /\
  hostedNodeCounts [] = (0, 0, 0).
Proof.
  split; [apply hostedNodeCounts_sums |]. split; [| reflexivity].
  intros H1 H2 H3. rewrite hostedNodeCounts_sums.
  now rewrite !wrap_in_range by assumption.
Qed.

(** The second scenario of the specification: autoscale 1 to 4 and a fixed
    pool of 2, with one pool reporting 3 current replicas. *)
Lemma hostedNodeCounts_aggregates_witness :
  hostedNodeCounts
    [NodePool.mk "us-east-1a" (Some (NodePoolAutoscaling.mk 1 4)) 0 (Some (NodePoolStatus.mk 3));
     NodePool.mk "us-east-1b" None 2 None]
  = (3, 6, 3).
Proof.
  apply (proj1 (proj2 (hostedNodeCounts_aggregates
    [NodePool.mk "us-east-1a" (Some (NodePoolAutoscaling.mk 1 4)) 0 (Some (NodePoolStatus.mk 3));
     NodePool.mk "us-east-1b" None 2 None])));
  vm_compute; split; discriminate.
Defined.

(** A classic cluster with the largest fixed compute count and one machine
    pool of one replica: the range is not the sum. *)
Lemma classicNodeCounts_sum_counterexample :
  let c := Sample.cluster false None (ClusterNodes.mk None Int.max_int 3 2) in
  let mpools := [MachinePool.mk None 1] in
  sumZ (map machinePoolMin mpools) + clusterComputeMin c = 2 ^ 63 /\
  sumZ (map machinePoolMax mpools) + clusterComputeMax c = 2 ^ 63 /\
  classicNodeCounts c mpools = (- 2 ^ 63, - 2 ^ 63) /\
  (classicNodeCounts c mpools).1 <> sumZ (map machinePoolMin mpools) + clusterComputeMin c.
Proof. cbv zeta. repeat split; try reflexivity. vm_compute. discriminate. Qed.

Lemma classic_rendering (c : Cluster.t) (mpools : list MachinePool.t) :
  Cluster.HypershiftEnabled c = false ->
  forall clusterKey nodePools minNodes maxNodes,
    classicNodeCounts c mpools = (minNodes, maxNodes) ->
    clusterInfraConfig c clusterKey mpools nodePools
    = if minNodes =? maxNodes
      then classicCompute (ClusterNodes.Master (Cluster.Nodes c))
                          (ClusterNodes.Infra (Cluster.Nodes c)) minNodes
      else classicAutoscaled (ClusterNodes.Master (Cluster.Nodes c))
                             (ClusterNodes.Infra (Cluster.Nodes c)) minNodes maxNodes.
Proof. intros Hh key nps mn mx Hc. unfold clusterInfraConfig. now rewrite Hh, Hc. Qed.

(** C4, amended: in the classic branch the range is the sum of the machine
    pools' contributions plus the cluster-level compute contribution
    (autoscale minimum and maximum, or the fixed compute count on both
    sides), each sum taken in Go's 64-bit [int] (it wraps around) and equal
    to the mathematical sum whenever that fits; the master and infra counts
    do not enter the range and are rendered on the "Control plane" and
    "Infra" lines as the cluster holds them; without machine pools the range
    is the cluster-level compute contribution alone. *)
Theorem classicNodeCounts_aggregates (c : Cluster.t) (mpools : list MachinePool.t) :
  classicNodeCounts c mpools
  = (Int.wrap (sumZ (map machinePoolMin mpools) + clusterComputeMin c),
     Int.wrap (sumZ (map machinePoolMax mpools) + clusterComputeMax c)) /\
  (Int.in_range (sumZ (map machinePoolMin mpools) + clusterComputeMin c) ->
   Int.in_range (sumZ (map machinePoolMax mpools) + clusterComputeMax c) ->
   classicNodeCounts c mpools
   = (sumZ (map machinePoolMin mpools) + clusterComputeMin c,
      sumZ (map machinePoolMax mpools) + clusterComputeMax c)) /\
  (forall autoscale compute master infra master' infra',
     classicNodeCounts (withNodes c (ClusterNodes.mk autoscale compute master infra)) mpools
     = classicNodeCounts (withNodes c (ClusterNodes.mk autoscale compute master' infra')) mpools) /\
  (Cluster.HypershiftEnabled c = false ->
   forall clusterKey nodePools minNodes maxNodes,
     classicNodeCounts c mpools = (minNodes, maxNodes) ->
     clusterInfraConfig c clusterKey mpools nodePools
     = "Nodes:" +:+ LF +:+
       " - Control plane:           " +:+ fmt.d (ClusterNodes.Master (Cluster.Nodes c)) +:+ LF +:+
       " - Infra:                   " +:+ fmt.d (ClusterNodes.Infra (Cluster.Nodes c)) +:+ LF +:+
       (if minNodes =? maxNodes
        then " - Compute:                 " +:+ fmt.d minNodes +:+ LF
        else " - Compute (Autoscaled):    " +:+ fmt.d minNodes +:+ "-" +:+
             fmt.d maxNodes +:+ LF)) /\
  classicNodeCounts c [] = (Int.wrap (clusterComputeMin c), Int.wrap (clusterComputeMax c)) /\
  (Int.in_range (clusterComputeMin c) -> Int.in_range (clusterComputeMax c) ->
   classicNodeCounts c [] = (clusterComputeMin c, clusterComputeMax c)).
Proof.
  split; [apply classicNodeCounts_sums |].
  split; [intros H1 H2; rewrite classicNodeCounts_sums;
          now rewrite !wrap_in_range by assumption |].
  split; [intros; reflexivity |].
  split.
  { intros Hh key nps mn mx Hc. rewrite (classic_rendering c mpools Hh key nps mn mx Hc).
    destruct (mn =? mx); reflexivity. }
  split; [now rewrite classicNodeCounts_sums |].
  intros H1 H2. rewrite classicNodeCounts_sums. simpl.
  now rewrite !wrap_in_range by assumption.
Qed.

(** The third scenario of the specification: no machine pool, three fixed
    compute nodes, three masters and two infra nodes. *)
Lemma classicNodeCounts_aggregates_witness :
  let c := Sample.cluster false None (ClusterNodes.mk None 3 3 2) in
  classicNodeCounts c [] = (3, 3) /\
  clusterInfraConfig c "mycluster" [] []
  = "Nodes:" +:+ LF +:+
    " - Control plane:           3" +:+ LF +:+
    " - Infra:                   2" +:+ LF +:+
    " - Compute:                 3" +:+ LF.
Proof.
  cbv zeta.
  pose proof (classicNodeCounts_aggregates
                (Sample.cluster false None (ClusterNodes.mk None 3 3 2)) [])
    as (_ & _ & _ & Hrender & _ & Hzero).
  split.
  - apply Hzero; vm_compute; split; discriminate.
  - rewrite (Hrender eq_refl "mycluster" [] 3 3); [reflexivity |].
    apply Hzero; vm_compute; split; discriminate.
Defined.

(** ** Single value or range *)

Section Display.
Lemma hosted_templates_differ maxNodes currentNodes a b k :
  hostedDesired maxNodes currentNodes <> hostedAutoscaled a b k.
Proof. unfold hostedDesired, hostedAutoscaled. simpl. discriminate. Qed.

Lemma classic_templates_differ master infra minNodes a b :
  classicCompute master infra minNodes <> classicAutoscaled master infra a b.
Proof.
  unfold classicCompute, classicAutoscaled. intros H.
  repeat (apply append_cancel_l in H). simpl in H. discriminate H.
Qed.
End Display.

Lemma clusterInfraConfig_templates (c : Cluster.t) (clusterKey : string)
    (machinePools : list MachinePool.t) (nodePools : list NodePool.t) :
  (Cluster.HypershiftEnabled c = true ->
   forall minNodes maxNodes currentNodes,
     hostedNodeCounts nodePools = (minNodes, maxNodes, currentNodes) ->
     (clusterInfraConfig c clusterKey machinePools nodePools
        = hostedDesired maxNodes currentNodes <-> minNodes = maxNodes) /\
     (clusterInfraConfig c clusterKey machinePools nodePools
        = hostedAutoscaled minNodes maxNodes currentNodes <-> minNodes <> maxNodes)) /\
  (Cluster.HypershiftEnabled c = false ->
   forall minNodes maxNodes,
     classicNodeCounts c machinePools = (minNodes, maxNodes) ->
     (clusterInfraConfig c clusterKey machinePools nodePools
        = classicCompute (ClusterNodes.Master (Cluster.Nodes c))
                         (ClusterNodes.Infra (Cluster.Nodes c)) minNodes
      <-> minNodes = maxNodes) /\
     (clusterInfraConfig c clusterKey machinePools nodePools
        = classicAutoscaled (ClusterNodes.Master (Cluster.Nodes c))
                            (ClusterNodes.Infra (Cluster.Nodes c)) minNodes maxNodes
      <-> minNodes <> maxNodes)).
Proof.
  unfold clusterInfraConfig. split; intros Hh; rewrite Hh.
  - intros mn mx cur ->. destruct (Z.eqb_spec mn mx) as [-> | Hne]; simpl.
    + repeat split; intros H; try congruence.
      exfalso. exact (hosted_templates_differ _ _ _ _ _ H).
    + repeat split; intros H; try congruence.
      exfalso. symmetry in H. exact (hosted_templates_differ _ _ _ _ _ H).
  - intros mn mx ->. destruct (Z.eqb_spec mn mx) as [-> | Hne].
    + repeat split; intros H; try congruence.
      exfalso. exact (classic_templates_differ _ _ _ _ _ H).
    + repeat split; intros H; try congruence.
      exfalso. symmetry in H. exact (classic_templates_differ _ _ _ _ _ H).
Qed.

(** C5: in both branches of [clusterInfraConfig] the single value (the line
    "Compute (desired)" for a hosted cluster, "Compute" for a classic one)
    is rendered exactly when [minNodes] and [maxNodes] are the same integer,
    and the "min-max" range on the line "Compute (Autoscaled)" exactly when
    they differ. *)
Theorem clusterInfraConfig_single_iff_equal (c : Cluster.t) (clusterKey : string)
    (machinePools : list MachinePool.t) (nodePools : list NodePool.t) :
  (Cluster.HypershiftEnabled c = true ->
   forall minNodes maxNodes currentNodes,
     hostedNodeCounts nodePools = (minNodes, maxNodes, currentNodes) ->
     (clusterInfraConfig c clusterKey machinePools nodePools
        = "Nodes:" +:+ LF +:+
          " - Compute (desired):       " +:+ fmt.d maxNodes +:+ LF +:+
          " - Compute (current):       " +:+ fmt.d currentNodes +:+ LF
      <-> minNodes = maxNodes) /\
     (clusterInfraConfig c clusterKey machinePools nodePools
        = "Nodes:" +:+ LF +:+
          " - Compute (Autoscaled):    " +:+ fmt.d minNodes +:+ "-" +:+
            fmt.d maxNodes +:+ LF +:+
          " - Compute (current):       " +:+ fmt.d currentNodes +:+ LF
      <-> minNodes <> maxNodes)) /\
  (Cluster.HypershiftEnabled c = false ->
   forall minNodes maxNodes,
     classicNodeCounts c machinePools = (minNodes, maxNodes) ->
     (clusterInfraConfig c clusterKey machinePools nodePools
        = "Nodes:" +:+ LF +:+
          " - Control plane:           " +:+
            fmt.d (ClusterNodes.Master (Cluster.Nodes c)) +:+ LF +:+
          " - Infra:                   " +:+
            fmt.d (ClusterNodes.Infra (Cluster.Nodes c)) +:+ LF +:+
          " - Compute:                 " +:+ fmt.d minNodes +:+ LF
      <-> minNodes = maxNodes) /\
     (clusterInfraConfig c clusterKey machinePools nodePools
        = "Nodes:" +:+ LF +:+
          " - Control plane:           " +:+
            fmt.d (ClusterNodes.Master (Cluster.Nodes c)) +:+ LF +:+
          " - Infra:                   " +:+
            fmt.d (ClusterNodes.Infra (Cluster.Nodes c)) +:+ LF +:+
          " - Compute (Autoscaled):    " +:+ fmt.d minNodes +:+ "-" +:+
            fmt.d maxNodes +:+ LF
      <-> minNodes <> maxNodes)).
Proof. exact (clusterInfraConfig_templates c clusterKey machinePools nodePools). Qed.

(** Hosted pools 1-4 and 2 render a range; a classic cluster with three
    fixed compute nodes renders a single value. *)
Lemma clusterInfraConfig_single_iff_equal_witness :
  clusterInfraConfig (Sample.cluster true (Some []) Sample.noNodes) "mycluster" []
    [NodePool.mk "us-east-1a" (Some (NodePoolAutoscaling.mk 1 4)) 0 None;
     NodePool.mk "us-east-1b" None 2 None]
  = "Nodes:" +:+ LF +:+
    " - Compute (Autoscaled):    3-6" +:+ LF +:+
    " - Compute (current):       0" +:+ LF /\
  clusterInfraConfig (Sample.cluster false None (ClusterNodes.mk None 3 3 2)) "mycluster" [] []
  = "Nodes:" +:+ LF +:+
    " - Control plane:           3" +:+ LF +:+
    " - Infra:                   2" +:+ LF +:+
    " - Compute:                 3" +:+ LF.
Proof.
  split.
  - apply (proj1 (clusterInfraConfig_single_iff_equal
             (Sample.cluster true (Some []) Sample.noNodes) "mycluster" []
             [NodePool.mk "us-east-1a" (Some (NodePoolAutoscaling.mk 1 4)) 0 None;
              NodePool.mk "us-east-1b" None 2 None]) eq_refl 3 6 0 eq_refl).
    discriminate.
  - apply (proj2 (clusterInfraConfig_single_iff_equal
             (Sample.cluster false None (ClusterNodes.mk None 3 3 2)) "mycluster" [] [])
             eq_refl 3 3 eq_refl).
    reflexivity.
Defined.

(** ** Ordered ranges *)

(** Two autoscaled node pools with min <= max each, whose maxima add up to
    more than an [int] holds: [maxNodes] wraps below [minNodes]. *)
Lemma hostedNodeCounts_ordered_counterexample :
  let pools :=
    [NodePool.mk "us-east-1a" (Some (NodePoolAutoscaling.mk 0 Int.max_int)) 0 None;
     NodePool.mk "us-east-1b" (Some (NodePoolAutoscaling.mk 0 1)) 0 None] in
  Forall nodePoolOrdered pools /\
  hostedNodeCounts pools = (0, Int.min_int, 0) /\
  ~ (0 <= Int.min_int).
Proof.
  cbv zeta. split; [| split; [reflexivity | vm_compute; tauto]].
  repeat constructor; intros a [= <-]; vm_compute; discriminate.
Qed.

(** C6, amended: when the sums of the minima and of the maxima fit Go's
    [int], pools (and, for classic, a cluster-level autoscale-compute
    config) with min <= max give [minNodes <= maxNodes]; and without any
    autoscale config (for classic, also none on the cluster) [minNodes]
    equals [maxNodes], whatever the sums. *)
Theorem nodeCounts_ordered (c : Cluster.t) (machinePools : list MachinePool.t)
    (nodePools : list NodePool.t) :
  (Forall nodePoolOrdered nodePools ->
   Int.in_range (sumZ (map nodePoolMin nodePools)) ->
   Int.in_range (sumZ (map nodePoolMax nodePools)) ->
   (hostedNodeCounts nodePools).1.1 <= (hostedNodeCounts nodePools).1.2) /\
  (Forall (fun p => NodePool.Autoscaling p = None) nodePools ->
   (hostedNodeCounts nodePools).1.1 = (hostedNodeCounts nodePools).1.2) /\
  (Forall machinePoolOrdered machinePools -> clusterComputeOrdered c ->
   Int.in_range (sumZ (map machinePoolMin machinePools) + clusterComputeMin c) ->
   Int.in_range (sumZ (map machinePoolMax machinePools) + clusterComputeMax c) ->
   (classicNodeCounts c machinePools).1 <= (classicNodeCounts c machinePools).2) /\
  (Forall (fun p => MachinePool.Autoscaling p = None) machinePools ->
   ClusterNodes.AutoscaleCompute (Cluster.Nodes c) = None ->
   (classicNodeCounts c machinePools).1 = (classicNodeCounts c machinePools).2).
Proof.
  rewrite hostedNodeCounts_sums, classicNodeCounts_sums. simpl.
  split; [| split; [| split]].
  - intros Hord H1 H2. rewrite !wrap_in_range by assumption.
    apply sumZ_le. eapply Forall_impl; [exact Hord |].
    intros p Hp. unfold nodePoolMin, nodePoolMax.
    destruct (NodePool.Autoscaling p) as [a|] eqn:E; [exact (Hp a E) | lia].
  - intros Hnone. f_equal. apply sumZ_eq. eapply Forall_impl; [exact Hnone |].
    intros p Hp. unfold nodePoolMin, nodePoolMax. now rewrite Hp.
  - intros Hord Hc H1 H2. rewrite !wrap_in_range by assumption.
    assert (sumZ (map machinePoolMin machinePools) <= sumZ (map machinePoolMax machinePools)).
    { apply sumZ_le. eapply Forall_impl; [exact Hord |].
      intros p Hp. unfold machinePoolMin, machinePoolMax.
      destruct (MachinePool.Autoscaling p) as [a|] eqn:E; [exact (Hp a E) | lia]. }
    assert (clusterComputeMin c <= clusterComputeMax c).
    { unfold clusterComputeMin, clusterComputeMax.
      destruct (ClusterNodes.AutoscaleCompute (Cluster.Nodes c)) as [a|] eqn:E;
        [exact (Hc a E) | lia]. }
    lia.
  - intros Hnone Hc. f_equal. f_equal.
    + apply sumZ_eq. eapply Forall_impl; [exact Hnone |].
      intros p Hp. unfold machinePoolMin, machinePoolMax. now rewrite Hp.
    + unfold clusterComputeMin, clusterComputeMax. now rewrite Hc.
Qed.

(** Hosted pools 1-4 and 2: 3 <= 6. *)
Lemma nodeCounts_ordered_witness :
  let pools :=
    [NodePool.mk "us-east-1a" (Some (NodePoolAutoscaling.mk 1 4)) 0 None;
     NodePool.mk "us-east-1b" None 2 None] in
  Forall nodePoolOrdered pools /\
  (hostedNodeCounts pools).1.1 <= (hostedNodeCounts pools).1.2.
Proof.
  cbv zeta.
  assert (Hord : Forall nodePoolOrdered
    [NodePool.mk "us-east-1a" (Some (NodePoolAutoscaling.mk 1 4)) 0 None;
     NodePool.mk "us-east-1b" None 2 None]).
  { repeat constructor; intros a [= <-]; vm_compute; discriminate. }
  split; [exact Hord |].
  apply (proj1 (nodeCounts_ordered (Sample.cluster true (Some []) Sample.noNodes) []
    [NodePool.mk "us-east-1a" (Some (NodePoolAutoscaling.mk 1 4)) 0 None;
     NodePool.mk "us-east-1b" None 2 None]) Hord);
  vm_compute; split; discriminate.
Defined.

(** ** The run of the command *)

Section Run.
Implicit Types (w : World) (argv : list string) (p : Process).

Ltac run_unfold :=
  unfold execute, run, describeText, printStructured, mbind, M_bind, mret, M_ret,
    ocm, Errorf, os_Exit, fmt_Print, return_, start.

Ltac run_case :=
  match goal with
  | |- context [match ?x with _ => _ end] => destruct x eqn:?
  | H : context [match ?x with _ => _ end] |- _ => destruct x eqn:?
  end.

(** A run that falls through its last statement has printed the report, once,
    and nothing else. *)
Lemma run_prints_report w argv p :
  execute w argv = (Next tt, p) ->
  exists clusterKey creatorARN machinePools nodePools su us cp reasons,
    GetLimitedSupportReasons w (Cluster.ID (FetchCluster w)) = Ok reasons /\
    stdout p =
      [limitedSupportSection reasons
         (reportBody w clusterKey creatorARN machinePools nodePools su us cp)] /\
    stderr p = [].
Proof.
  run_unfold. unfold reportBody. intros H.
  repeat run_case; simplify_eq/=;
    repeat match goal with Heq : Cluster.HypershiftEnabled _ = _ |- _ => rewrite Heq end;
    do 8 eexists; (split; [eassumption || reflexivity |]); split; reflexivity.
Qed.

(** An OCM call that fails ends the run at once: one reporter message,
    exit status 1, nothing on standard output. *)
Lemma run_failed_call w argv c :
  failed c (execute w argv).2 ->
  (execute w argv).1 = Exit 1 /\
  stdout (execute w argv).2 = [] /\
  exists message, stderr (execute w argv).2 = [message].
Proof.
  unfold failed. run_unfold.
  repeat run_case; simplify_eq/=; intros H;
    repeat (destruct H as [H | H]; [try discriminate H |]); try contradiction;
    (split; [reflexivity | split; [reflexivity | eexists; reflexivity]]).
Qed.
(** A classic run in text mode whose calls and ARN parse succeed: what it
    prints and which calls it makes. *)
Lemma run_text_classic w argv su us arn mps reasons :
  HasFlag w = false ->
  Cluster.HypershiftEnabled (FetchCluster w) = false ->
  GetScheduledUpgrade w (Cluster.ID (FetchCluster w)) = Ok (su, us) ->
  arnParse w (default "" (Cluster.Properties (FetchCluster w) !! CreatorARN w)) = Ok arn ->
  GetMachinePools w (Cluster.ID (FetchCluster w)) = Ok mps ->
  GetLimitedSupportReasons w (Cluster.ID (FetchCluster w)) = Ok reasons ->
  execute w argv
  = (Next tt,
     mkProcess
       [limitedSupportSection reasons
          (reportBody w (clusterKeyOf w argv) arn mps [] su us None)]
       []
       [(CallGetScheduledUpgrade, true); (CallGetMachinePools, true);
        (CallGetLimitedSupportReasons, true)]).
Proof.
  intros Hflag Hh Hsu Harn Hmp Hls. unfold reportBody, clusterKeyOf. run_unfold.
  rewrite Hh, Hsu, Hflag, Harn, Hmp, Hls. reflexivity.
Qed.

(** The same for a hosted run. *)
Lemma run_text_hosted w argv cp arn nps reasons :
  HasFlag w = false ->
  Cluster.HypershiftEnabled (FetchCluster w) = true ->
  GetControlPlaneScheduledUpgrade w (Cluster.ID (FetchCluster w)) = Ok cp ->
  arnParse w (default "" (Cluster.Properties (FetchCluster w) !! CreatorARN w)) = Ok arn ->
  GetNodePools w (Cluster.ID (FetchCluster w)) = Ok nps ->
  GetLimitedSupportReasons w (Cluster.ID (FetchCluster w)) = Ok reasons ->
  execute w argv
  = (Next tt,
     mkProcess
       [limitedSupportSection reasons
          (reportBody w (clusterKeyOf w argv) arn [] nps None None cp)]
       []
       [(CallGetControlPlaneScheduledUpgrade, true); (CallGetNodePools, true);
        (CallGetLimitedSupportReasons, true)]).
Proof.
  intros Hflag Hh Hcp Harn Hnp Hls. unfold reportBody, clusterKeyOf. run_unfold.
  rewrite Hh, Hcp, Hflag, Harn, Hnp, Hls. reflexivity.
Qed.
(** A run with the output flag whose formatter and printer succeed. *)
Lemma run_structured_classic w argv su us f text :
  HasFlag w = true ->
  Cluster.HypershiftEnabled (FetchCluster w) = false ->
  GetScheduledUpgrade w (Cluster.ID (FetchCluster w)) = Ok (su, us) ->
  formatCluster w (FetchCluster w) su us = Ok f ->
  outputPrint w f = Ok text ->
  execute w argv
  = (Return, mkProcess [text] [] [(CallGetScheduledUpgrade, true)]).
Proof.
  intros Hflag Hh Hsu Hf Hp. run_unfold.
  rewrite Hh, Hsu, Hflag, Hf, Hp. reflexivity.
Qed.

Lemma run_structured_hosted w argv cp f text :
  HasFlag w = true ->
  Cluster.HypershiftEnabled (FetchCluster w) = true ->
  GetControlPlaneScheduledUpgrade w (Cluster.ID (FetchCluster w)) = Ok cp ->
  formatClusterHypershift w (FetchCluster w) cp = Ok f ->
  outputPrint w f = Ok text ->
  execute w argv
  = (Return, mkProcess [text] [] [(CallGetControlPlaneScheduledUpgrade, true)]).
Proof.
  intros Hflag Hh Hcp Hf Hp. run_unfold.
  rewrite Hh, Hcp, Hflag, Hf, Hp. reflexivity.
Qed.
End Run.

(** ** Limited support *)

Section LimitedSupport.
Implicit Types (reasons : list LimitedSupportReason.t) (str : string).

Lemma limitedSupport_loop reasons str :
  foldl
    (fun str reason =>
       str +:+
       " - Summary:                 " +:+ LimitedSupportReason.Summary reason +:+ LF +:+
       " - Details:                 " +:+ LimitedSupportReason.Details reason +:+ LF)
    str reasons
  = str +:+ concatStrings (map reasonPair reasons).
Proof.
  revert str. induction reasons as [|r reasons IH]; intros str.
  - simpl. now rewrite append_empty_r.
  - cbn [foldl map concatStrings foldr]. rewrite IH.
    fold (reasonPair r). fold (concatStrings (map reasonPair reasons)).
    now rewrite append_assoc.
Qed.

Lemma limitedSupportSection_text reasons str :
  limitedSupportSection reasons str = str +:+ limitedSupportText reasons +:+ LF.
Proof.
  unfold limitedSupportSection. rewrite limitedSupport_loop.
  destruct reasons as [|r reasons].
  - simpl. now rewrite append_empty_r.
  - cbn [length limitedSupportText]. rewrite Nat2Z.inj_succ.
    replace (0 <? Z.succ (Z.of_nat (length reasons))) with true
      by (symmetry; apply Z.ltb_lt; lia).
    now rewrite !append_assoc.
Qed.
End LimitedSupport.

Lemma concatStrings_snoc (l : list string) (x : string) :
  concatStrings (l ++ [x]) = concatStrings l +:+ x.
Proof.
  induction l as [|y l IH]; simpl.
  - apply append_empty_r.
  - fold (concatStrings (l ++ [x])). fold (concatStrings l).
    now rewrite IH, append_assoc.
Qed.

(** C7: the text report ends with the limited-support section: the header
    "Limited Support:" if and only if the list of reasons is non-empty,
    then one summary/detail pair per reason in the order of the list (one
    more reason at the end of the list adds its pair at the end of the
    section), then the closing line feed; a classic or hosted run in text
    mode whose calls succeed prints exactly this after the rest of the
    report, for the reasons it fetched. *)
Theorem limited_support_rendering (reasons : list LimitedSupportReason.t) (str : string) :
  limitedSupportSection reasons str = str +:+ limitedSupportText reasons +:+ LF /\
  (String.prefix "Limited Support:" (limitedSupportSection reasons "") = true
   <-> reasons <> []) /\
  (reasons = [] -> limitedSupportSection reasons str = str +:+ LF) /\
  (reasons <> [] ->
   limitedSupportSection reasons str
   = str +:+ "Limited Support:" +:+ LF +:+ concatStrings (map reasonPair reasons) +:+ LF) /\
  (reasons <> [] ->
   forall reason,
     limitedSupportSection (reasons ++ [reason]) str
     = str +:+ "Limited Support:" +:+ LF +:+ concatStrings (map reasonPair reasons) +:+
       " - Summary:                 " +:+ LimitedSupportReason.Summary reason +:+ LF +:+
       " - Details:                 " +:+ LimitedSupportReason.Details reason +:+ LF +:+
       LF) /\
  (forall w argv su us arn mps,
     HasFlag w = false ->
     Cluster.HypershiftEnabled (FetchCluster w) = false ->
     GetScheduledUpgrade w (Cluster.ID (FetchCluster w)) = Ok (su, us) ->
     arnParse w (default "" (Cluster.Properties (FetchCluster w) !! CreatorARN w)) = Ok arn ->
     GetMachinePools w (Cluster.ID (FetchCluster w)) = Ok mps ->
     GetLimitedSupportReasons w (Cluster.ID (FetchCluster w)) = Ok reasons ->
     (execute w argv).1 = Next tt /\
     stdout (execute w argv).2
     = [reportBody w (clusterKeyOf w argv) arn mps [] su us None +:+
        limitedSupportText reasons +:+ LF]) /\
  (forall w argv cp arn nps,
     HasFlag w = false ->
     Cluster.HypershiftEnabled (FetchCluster w) = true ->
     GetControlPlaneScheduledUpgrade w (Cluster.ID (FetchCluster w)) = Ok cp ->
     arnParse w (default "" (Cluster.Properties (FetchCluster w) !! CreatorARN w)) = Ok arn ->
     GetNodePools w (Cluster.ID (FetchCluster w)) = Ok nps ->
     GetLimitedSupportReasons w (Cluster.ID (FetchCluster w)) = Ok reasons ->
     (execute w argv).1 = Next tt /\
     stdout (execute w argv).2
     = [reportBody w (clusterKeyOf w argv) arn [] nps None None cp +:+
        limitedSupportText reasons +:+ LF]) /\
  (forall w argv p, execute w argv = (Next tt, p) ->
     exists body reasons',
       GetLimitedSupportReasons w (Cluster.ID (FetchCluster w)) = Ok reasons' /\
       stdout p = [body +:+ limitedSupportText reasons' +:+ LF]).
Proof.
  split; [apply limitedSupportSection_text |].
  split.
  { rewrite limitedSupportSection_text. destruct reasons; simpl; split; congruence. }
  split; [intros ->; rewrite limitedSupportSection_text; reflexivity |].
  split.
  { intros Hne. rewrite limitedSupportSection_text.
    destruct reasons as [|r rs]; [congruence |].
    cbn [limitedSupportText]. now rewrite !append_assoc. }
  split.
  { intros Hne reason. rewrite limitedSupportSection_text.
    destruct reasons as [|r rs]; [congruence |].
    cbn [app limitedSupportText]. rewrite app_comm_cons, map_app.
    cbn [map]. rewrite concatStrings_snoc. unfold reasonPair.
    now rewrite !append_assoc. }
  split.
  { intros w argv su us arn mps H1 H2 H3 H4 H5 H6.
    rewrite (run_text_classic w argv su us arn mps reasons H1 H2 H3 H4 H5 H6).
    split; [reflexivity |]. cbn [snd stdout]. now rewrite limitedSupportSection_text. }
  split.
  { intros w argv cp arn nps H1 H2 H3 H4 H5 H6.
    rewrite (run_text_hosted w argv cp arn nps reasons H1 H2 H3 H4 H5 H6).
    split; [reflexivity |]. cbn [snd stdout]. now rewrite limitedSupportSection_text. }
  intros w argv p Hrun.
  destruct (run_prints_report w argv p Hrun)
    as (key & arn & mps & nps & su & us & cp & rs & Hrs & Hout & _).
  exists (reportBody w key arn mps nps su us cp), rs.
  split; [exact Hrs |]. now rewrite Hout, limitedSupportSection_text.
Qed.

(** A hosted run in text mode that fetches two reasons prints them, in their
    order, at the end of the report. *)
Lemma limited_support_rendering_witness :
  let reasons := [LimitedSupportReason.mk "s1" "d1"; LimitedSupportReason.mk "s2" "d2"] in
  let w := Sample.world (Sample.cluster true (Some []) Sample.noNodes) false
             (Err "unused") (Ok None) (Err "unused") (Ok [Sample.az "us-east-1a"])
             (Ok reasons) in
  (execute w []).1 = Next tt /\
  stdout (execute w []).2
  = [reportBody w "mycluster" (mkARN "123456789012") [] [Sample.az "us-east-1a"]
       None None None +:+
     "Limited Support:" +:+ LF +:+
     " - Summary:                 s1" +:+ LF +:+
     " - Details:                 d1" +:+ LF +:+
     " - Summary:                 s2" +:+ LF +:+
     " - Details:                 d2" +:+ LF +:+ LF].
Proof.
  cbv zeta.
  destruct (proj1 (proj2 (proj2 (proj2 (proj2 (proj2 (proj2
    (limited_support_rendering
       [LimitedSupportReason.mk "s1" "d1"; LimitedSupportReason.mk "s2" "d2"] "")))))))
    (Sample.world (Sample.cluster true (Some []) Sample.noNodes) false
       (Err "unused") (Ok None) (Err "unused") (Ok [Sample.az "us-east-1a"])
       (Ok [LimitedSupportReason.mk "s1" "d1"; LimitedSupportReason.mk "s2" "d2"]))
    [] None (mkARN "123456789012") [Sample.az "us-east-1a"]
    eq_refl eq_refl eq_refl eq_refl eq_refl eq_refl) as [Hflow Hout].
  split; [exact Hflow |]. rewrite Hout. reflexivity.
Defined.

(** ** Errors of the collaborators *)

(** C9: when a call of the OCM client (scheduled upgrade, machine or node
    pools, limited-support reasons) returns an error, the run ends with exit
    status 1 after a single reporter message and with nothing written to
    standard output; more generally every run that exits does so with
    status 1, one message and an empty standard output, and a run that
    reaches its last statement has written to standard output once. *)
Theorem collaborator_error_aborts (w : World) (argv : list string) :
  (forall c, failed c (execute w argv).2 ->
     (execute w argv).1 = Exit 1 /\
     exitCode (execute w argv).1 = 1 /\
     stdout (execute w argv).2 = [] /\
     exists message, stderr (execute w argv).2 = [message]) /\
  (forall p, execute w argv = (Next tt, p) -> length (stdout p) = 1%nat /\ stderr p = []).
Proof.
  split.
  - intros c Hc. destruct (run_failed_call w argv c Hc) as (He & Hout & Herr).
    rewrite He. repeat split; assumption.
  - intros p Hrun.
    destruct (run_prints_report w argv p Hrun)
      as (key & arn & mps & nps & su & us & cp & rs & _ & Hout & Herr).
    now rewrite Hout, Herr.
Qed.

(** A hosted cluster whose node pools cannot be fetched. *)
Lemma collaborator_error_aborts_witness :
  let w := Sample.world (Sample.cluster true (Some []) Sample.noNodes) false
             (Ok (None, None)) (Ok None) (Ok []) (Err "timeout") (Ok []) in
  failed CallGetNodePools (execute w []).2 /\
  (execute w []).1 = Exit 1 /\
  stdout (execute w []).2 = [] /\
  stderr (execute w []).2 = ["Failed to get machine pools for cluster 'mycluster': timeout"].
Proof.
  cbv zeta.
  assert (Hf : failed CallGetNodePools
    (execute (Sample.world (Sample.cluster true (Some []) Sample.noNodes) false
                (Ok (None, None)) (Ok None) (Ok []) (Err "timeout") (Ok [])) []).2).
  { right. left. reflexivity. }
  split; [exact Hf |].
  destruct (proj1 (collaborator_error_aborts _ _) _ Hf) as (He & _ & Hout & _).
  split; [exact He |]. split; [exact Hout | reflexivity].
Defined.

(** ** The scheduled upgrade *)

Section ScheduledUpgrade.
Implicit Types (w : World) (c : Cluster.t) (str : string).

Lemma classic_guard (su : option UpgradePolicy.t) (us : option UpgradePolicyState.t) :
  notNil su && notNil us && (0 <? Int.len (UpgradePolicy.Version su))
    && (0 <? Int.len (UpgradePolicyState.Value us)) = true
  <-> classicUpgradeComplete su us.
Proof.
  unfold classicUpgradeComplete. rewrite !andb_true_iff, !len_positive. split.
  - intros [[[Hsu Hus] Hv] Hs]. destruct su as [p|], us as [s|]; try discriminate.
    exists p, s. simpl in *. auto.
  - intros (p & s & -> & -> & Hv & Hs). simpl. auto.
Qed.

Lemma hosted_guard (cp : option ControlPlaneUpgradePolicy.t) :
  notNil cp && notNil (ControlPlaneUpgradePolicy.State cp)
    && (0 <? Int.len (ControlPlaneUpgradePolicy.Version cp))
    && (0 <? Int.len (UpgradePolicyState.Value (ControlPlaneUpgradePolicy.State cp))) = true
  <-> hostedUpgradeComplete cp.
Proof.
  unfold hostedUpgradeComplete. rewrite !andb_true_iff, !len_positive. split.
  - intros [[[Hcp Hst] Hv] Hs]. destruct cp as [p|]; try discriminate.
    simpl in *. destruct (ControlPlaneUpgradePolicy.state p) as [s|] eqn:E; try discriminate.
    exists p, s. auto.
  - intros (p & s & -> & E & Hv & Hs). simpl. rewrite E. simpl. auto.
Qed.

Lemma formatCluster_cases w c su us :
  formatCluster w c su us =
    match decodeCluster w c with
    | Err err => Err err
    | Ok ret =>
        if notNil su && notNil us && (0 <? Int.len (UpgradePolicy.Version su))
             && (0 <? Int.len (UpgradePolicyState.Value us))
        then Ok (<["scheduledUpgrade" :=
                    upgradeObject (UpgradePolicy.Version su) (UpgradePolicyState.Value us)
                      (timeFormat w (UpgradePolicy.NextRun su) upgradeLayout)]> ret)
        else Ok ret
    end.
Proof.
  unfold formatCluster, decodeCluster.
  destruct (MarshalCluster w c) as [b|]; [| reflexivity].
  destruct (jsonUnmarshal w b); reflexivity.
Qed.

Lemma formatClusterHypershift_cases w c cp :
  formatClusterHypershift w c cp =
    match decodeCluster w c with
    | Err err => Err err
    | Ok ret =>
        if notNil cp && notNil (ControlPlaneUpgradePolicy.State cp)
             && (0 <? Int.len (ControlPlaneUpgradePolicy.Version cp))
             && (0 <? Int.len (UpgradePolicyState.Value (ControlPlaneUpgradePolicy.State cp)))
        then Ok (<["scheduledUpgrade" :=
                    upgradeObject (ControlPlaneUpgradePolicy.Version cp)
                      (UpgradePolicyState.Value (ControlPlaneUpgradePolicy.State cp))
                      (timeFormat w (ControlPlaneUpgradePolicy.NextRun cp) upgradeLayout)]> ret)
        else Ok ret
    end.
Proof.
  unfold formatClusterHypershift, decodeCluster.
  destruct (MarshalCluster w c) as [b|]; [| reflexivity].
  destruct (jsonUnmarshal w b); reflexivity.
Qed.

Lemma upgradeLine_not_empty state version nextRun : upgradeLine state version nextRun <> "".
Proof. unfold upgradeLine. simpl. discriminate. Qed.
End ScheduledUpgrade.

(** A classic policy and a hosted one with state and version but without
    next-run: the structured output carries the upgrade, with the zero
    time; and a classic policy without version, state and next-run: the
    text report carries the line. *)
Lemma scheduled_upgrade_counterexample :
  let c := Sample.cluster false None Sample.noNodes in
  let w := Sample.world c true (Ok (None, None)) (Ok None) (Ok []) (Ok []) (Ok []) in
  let state := Some (UpgradePolicyState.mk "scheduled") in
  UpgradePolicy.nextRun (UpgradePolicy.mk "4.12.1" None) = None /\
  formatCluster w c (Some (UpgradePolicy.mk "4.12.1" None)) state
  = Ok (<["scheduledUpgrade" :=
           upgradeObject "4.12.1" "scheduled" (Sample.format time.zero upgradeLayout)]> ∅) /\
  formatClusterHypershift w c (Some (ControlPlaneUpgradePolicy.mk state "4.12.1" None))
  = Ok (<["scheduledUpgrade" :=
           upgradeObject "4.12.1" "scheduled" (Sample.format time.zero upgradeLayout)]> ∅) /\
  scheduledUpgradeSection w false (Some (UpgradePolicy.mk "" None)) None None "report"
  = "report" +:+ upgradeLine "" "" (Sample.format time.zero upgradeLayout).
Proof. cbv zeta. repeat split; reflexivity. Qed.

Lemma scheduled_upgrade_sections (w : World) (c : Cluster.t) :
  (forall su us,
     (classicUpgradeComplete su us ->
      formatCluster w c su us =
        match decodeCluster w c with
        | Err err => Err err
        | Ok ret =>
            Ok (<["scheduledUpgrade" :=
                   upgradeObject (UpgradePolicy.Version su) (UpgradePolicyState.Value us)
                     (timeFormat w (UpgradePolicy.NextRun su) upgradeLayout)]> ret)
        end) /\
     (~ classicUpgradeComplete su us -> formatCluster w c su us = decodeCluster w c) /\
     (forall ret ret', decodeCluster w c = Ok ret -> ret !! "scheduledUpgrade" = None ->
        formatCluster w c su us = Ok ret' ->
        (is_Some (ret' !! "scheduledUpgrade") <-> classicUpgradeComplete su us))) /\
  (forall cp,
     (hostedUpgradeComplete cp ->
      formatClusterHypershift w c cp =
        match decodeCluster w c with
        | Err err => Err err
        | Ok ret =>
            Ok (<["scheduledUpgrade" :=
                   upgradeObject (ControlPlaneUpgradePolicy.Version cp)
                     (UpgradePolicyState.Value (ControlPlaneUpgradePolicy.State cp))
                     (timeFormat w (ControlPlaneUpgradePolicy.NextRun cp) upgradeLayout)]> ret)
        end) /\
     (~ hostedUpgradeComplete cp -> formatClusterHypershift w c cp = decodeCluster w c) /\
     (forall ret ret', decodeCluster w c = Ok ret -> ret !! "scheduledUpgrade" = None ->
        formatClusterHypershift w c cp = Ok ret' ->
        (is_Some (ret' !! "scheduledUpgrade") <-> hostedUpgradeComplete cp))) /\
  (forall su us cp str,
     scheduledUpgradeSection w false su us cp str =
       match su with
       | Some _ =>
           str +:+ upgradeLine (UpgradePolicyState.Value us) (UpgradePolicy.Version su)
                     (timeFormat w (UpgradePolicy.NextRun su) upgradeLayout)
       | None => str
       end) /\
  (forall su us cp str, scheduledUpgradeSection w false su us cp str = str <-> su = None) /\
  (forall su us cp str,
     scheduledUpgradeSection w true su us cp str =
       match cp with
       | Some _ =>
           str +:+ upgradeLine
                     (UpgradePolicyState.Value (ControlPlaneUpgradePolicy.State cp))
                     (ControlPlaneUpgradePolicy.Version cp)
                     (timeFormat w (ControlPlaneUpgradePolicy.NextRun cp) upgradeLayout)
       | None => str
       end) /\
  (forall su us cp str, scheduledUpgradeSection w true su us cp str = str <-> cp = None).
Proof.
  split; [| split].
  - intros su us. rewrite formatCluster_cases.
    pose proof (classic_guard su us) as Hg.
    destruct (notNil su && notNil us && (0 <? Int.len (UpgradePolicy.Version su))
              && (0 <? Int.len (UpgradePolicyState.Value us))) eqn:G.
    + assert (Hc : classicUpgradeComplete su us) by now apply Hg.
      split; [reflexivity |]. split; [tauto |].
      intros ret ret' -> Hnone [= <-]. rewrite lookup_insert_eq. split; [auto | eauto].
    + assert (Hc : ~ classicUpgradeComplete su us) by (rewrite <- Hg; discriminate).
      split; [tauto |]. split; [intros _; now destruct (decodeCluster w c) |].
      intros ret ret' -> Hnone [= <-]. rewrite Hnone. split; [intros [x Hx]; discriminate | tauto].
  - intros cp. rewrite formatClusterHypershift_cases.
    pose proof (hosted_guard cp) as Hg.
    destruct (notNil cp && notNil (ControlPlaneUpgradePolicy.State cp)
              && (0 <? Int.len (ControlPlaneUpgradePolicy.Version cp))
              && (0 <? Int.len (UpgradePolicyState.Value (ControlPlaneUpgradePolicy.State cp))))
      eqn:G.
    + assert (Hc : hostedUpgradeComplete cp) by now apply Hg.
      split; [reflexivity |]. split; [tauto |].
      intros ret ret' -> Hnone [= <-]. rewrite lookup_insert_eq. split; [auto | eauto].
    + assert (Hc : ~ hostedUpgradeComplete cp) by (rewrite <- Hg; discriminate).
      split; [tauto |]. split; [intros _; now destruct (decodeCluster w c) |].
      intros ret ret' -> Hnone [= <-]. rewrite Hnone. split; [intros [x Hx]; discriminate | tauto].
  - unfold scheduledUpgradeSection, upgradeLine. simpl negb. cbv iota.
    split; [intros [p|] us cp str; reflexivity |].
    split; [intros [p|] us cp str; simpl notNil; cbv iota; split; intros H;
            try reflexivity; try discriminate;
            apply append_fixpoint in H; simpl in H; discriminate |].
    split; [intros su us [p|] str; reflexivity |].
    intros su us [p|] str; simpl notNil; cbv iota; split; intros H;
      try reflexivity; try discriminate;
      apply append_fixpoint in H; simpl in H; discriminate.
Qed.

(** C1, amended: in structured mode ([formatCluster],
    [formatClusterHypershift]) the [scheduledUpgrade] object is added if and
    only if the policy and its state are non-nil and version and state are
    non-empty; the next-run time is not examined, and a missing one is
    rendered as the zero time.  In text mode the line "state version on
    timestamp" is rendered if and only if the policy is non-nil, with
    whatever state, version and next-run the policy has.  [run] passes the
    policy it fetched for the cluster's shape to both: a text run that
    completes prints the report with that line for the fetched policy, and
    a structured run prints the map of the formatter for the fetched
    policy. *)
Theorem scheduled_upgrade_rendering (w : World) (c : Cluster.t) :
  (forall su us,
     (classicUpgradeComplete su us ->
      formatCluster w c su us =
        match decodeCluster w c with
        | Err err => Err err
        | Ok ret =>
            Ok (<["scheduledUpgrade" :=
                   upgradeObject (UpgradePolicy.Version su) (UpgradePolicyState.Value us)
                     (timeFormat w (UpgradePolicy.NextRun su) upgradeLayout)]> ret)
        end) /\
     (~ classicUpgradeComplete su us -> formatCluster w c su us = decodeCluster w c) /\
     (forall ret ret', decodeCluster w c = Ok ret -> ret !! "scheduledUpgrade" = None ->
        formatCluster w c su us = Ok ret' ->
        (is_Some (ret' !! "scheduledUpgrade") <-> classicUpgradeComplete su us))) /\
  (forall cp,
     (hostedUpgradeComplete cp ->
      formatClusterHypershift w c cp =
        match decodeCluster w c with
        | Err err => Err err
        | Ok ret =>
            Ok (<["scheduledUpgrade" :=
                   upgradeObject (ControlPlaneUpgradePolicy.Version cp)
                     (UpgradePolicyState.Value (ControlPlaneUpgradePolicy.State cp))
                     (timeFormat w (ControlPlaneUpgradePolicy.NextRun cp) upgradeLayout)]> ret)
        end) /\
     (~ hostedUpgradeComplete cp -> formatClusterHypershift w c cp = decodeCluster w c) /\
     (forall ret ret', decodeCluster w c = Ok ret -> ret !! "scheduledUpgrade" = None ->
        formatClusterHypershift w c cp = Ok ret' ->
        (is_Some (ret' !! "scheduledUpgrade") <-> hostedUpgradeComplete cp))) /\
  (forall su us cp str,
     scheduledUpgradeSection w false su us cp str =
       match su with
       | Some _ =>
           str +:+ upgradeLine (UpgradePolicyState.Value us) (UpgradePolicy.Version su)
                     (timeFormat w (UpgradePolicy.NextRun su) upgradeLayout)
       | None => str
       end) /\
  (forall su us cp str, scheduledUpgradeSection w false su us cp str = str <-> su = None) /\
  (forall su us cp str,
     scheduledUpgradeSection w true su us cp str =
       match cp with
       | Some _ =>
           str +:+ upgradeLine
                     (UpgradePolicyState.Value (ControlPlaneUpgradePolicy.State cp))
                     (ControlPlaneUpgradePolicy.Version cp)
                     (timeFormat w (ControlPlaneUpgradePolicy.NextRun cp) upgradeLayout)
       | None => str
       end) /\
  (forall su us cp str, scheduledUpgradeSection w true su us cp str = str <-> cp = None) /\
  (forall argv su us arn mps reasons,
     HasFlag w = false ->
     Cluster.HypershiftEnabled (FetchCluster w) = false ->
     GetScheduledUpgrade w (Cluster.ID (FetchCluster w)) = Ok (su, us) ->
     arnParse w (default "" (Cluster.Properties (FetchCluster w) !! CreatorARN w)) = Ok arn ->
     GetMachinePools w (Cluster.ID (FetchCluster w)) = Ok mps ->
     GetLimitedSupportReasons w (Cluster.ID (FetchCluster w)) = Ok reasons ->
     (execute w argv).1 = Next tt /\
     stdout (execute w argv).2
     = [limitedSupportSection reasons
          (provisionErrorSection (FetchCluster w)
             match su with
             | Some _ =>
                 reportBeforeUpgrade w (clusterKeyOf w argv) arn mps [] +:+
                 "Scheduled Upgrade:          " +:+ UpgradePolicyState.Value us +:+ " " +:+
                 UpgradePolicy.Version su +:+ " on " +:+
                 timeFormat w (UpgradePolicy.NextRun su) upgradeLayout +:+ LF
             | None => reportBeforeUpgrade w (clusterKeyOf w argv) arn mps []
             end)]) /\
  (forall argv cp arn nps reasons,
     HasFlag w = false ->
     Cluster.HypershiftEnabled (FetchCluster w) = true ->
     GetControlPlaneScheduledUpgrade w (Cluster.ID (FetchCluster w)) = Ok cp ->
     arnParse w (default "" (Cluster.Properties (FetchCluster w) !! CreatorARN w)) = Ok arn ->
     GetNodePools w (Cluster.ID (FetchCluster w)) = Ok nps ->
     GetLimitedSupportReasons w (Cluster.ID (FetchCluster w)) = Ok reasons ->
     (execute w argv).1 = Next tt /\
     stdout (execute w argv).2
     = [limitedSupportSection reasons
          (provisionErrorSection (FetchCluster w)
             match cp with
             | Some _ =>
                 reportBeforeUpgrade w (clusterKeyOf w argv) arn [] nps +:+
                 "Scheduled Upgrade:          " +:+
                 UpgradePolicyState.Value (ControlPlaneUpgradePolicy.State cp) +:+ " " +:+
                 ControlPlaneUpgradePolicy.Version cp +:+ " on " +:+
                 timeFormat w (ControlPlaneUpgradePolicy.NextRun cp) upgradeLayout +:+ LF
             | None => reportBeforeUpgrade w (clusterKeyOf w argv) arn [] nps
             end)]) /\
  (forall argv su us f text,
     HasFlag w = true ->
     Cluster.HypershiftEnabled (FetchCluster w) = false ->
     GetScheduledUpgrade w (Cluster.ID (FetchCluster w)) = Ok (su, us) ->
     formatCluster w (FetchCluster w) su us = Ok f ->
     outputPrint w f = Ok text ->
     (execute w argv).1 = Return /\ stdout (execute w argv).2 = [text]) /\
  (forall argv cp f text,
     HasFlag w = true ->
     Cluster.HypershiftEnabled (FetchCluster w) = true ->
     GetControlPlaneScheduledUpgrade w (Cluster.ID (FetchCluster w)) = Ok cp ->
     formatClusterHypershift w (FetchCluster w) cp = Ok f ->
     outputPrint w f = Ok text ->
     (execute w argv).1 = Return /\ stdout (execute w argv).2 = [text]).
Proof.
  destruct (scheduled_upgrade_sections w c) as (S1 & S2 & T1 & T2 & T3 & T4).
  split; [exact S1 |]. split; [exact S2 |]. split; [exact T1 |]. split; [exact T2 |].
  split; [exact T3 |]. split; [exact T4 |].
  split.
  { intros argv su us arn mps reasons H1 H2 H3 H4 H5 H6.
    rewrite (run_text_classic w argv su us arn mps reasons H1 H2 H3 H4 H5 H6).
    split; [reflexivity |]. cbn [snd stdout]. unfold reportBody, reportBeforeUpgrade.
    cbv zeta. rewrite H2, T1. unfold upgradeLine. destruct su; reflexivity. }
  split.
  { intros argv cp arn nps reasons H1 H2 H3 H4 H5 H6.
    rewrite (run_text_hosted w argv cp arn nps reasons H1 H2 H3 H4 H5 H6).
    split; [reflexivity |]. cbn [snd stdout]. unfold reportBody, reportBeforeUpgrade.
    cbv zeta. rewrite H2, T3. unfold upgradeLine. destruct cp; reflexivity. }
  split.
  { intros argv su us f text H1 H2 H3 H4 H5.
    rewrite (run_structured_classic w argv su us f text H1 H2 H3 H4 H5). split; reflexivity. }
  intros argv cp f text H1 H2 H3 H4 H5.
  rewrite (run_structured_hosted w argv cp f text H1 H2 H3 H4 H5). split; reflexivity.
Qed.

(** A complete classic policy: the structured output carries it; and a
    classic text run prints the line of the policy it fetched. *)
Lemma scheduled_upgrade_rendering_witness :
  let c := Sample.cluster false None Sample.noNodes in
  let policy := Some (UpgradePolicy.mk "4.12.1" (Some (time.mkTime 1700000000 "UTC"))) in
  let state := Some (UpgradePolicyState.mk "scheduled") in
  let w := Sample.world c true (Ok (policy, state)) (Ok None) (Ok []) (Ok []) (Ok []) in
  let w' := Sample.world c false (Ok (policy, state)) (Ok None) (Ok []) (Ok []) (Ok []) in
  formatCluster w c policy state
  = Ok (<["scheduledUpgrade" :=
           upgradeObject "4.12.1" "scheduled"
             (Sample.format (time.mkTime 1700000000 "UTC") upgradeLayout)]> ∅) /\
  (execute w' []).1 = Next tt /\
  stdout (execute w' []).2
  = [reportBeforeUpgrade w' "mycluster" (mkARN "123456789012") [] [] +:+
     "Scheduled Upgrade:          scheduled 4.12.1 on 2006-01-02 15:04 MST@1700000000" +:+ LF +:+
     LF].
Proof.
  cbv zeta. split.
  - apply (proj1 (proj1 (scheduled_upgrade_rendering
      (Sample.world (Sample.cluster false None Sample.noNodes) true
         (Ok (Some (UpgradePolicy.mk "4.12.1" (Some (time.mkTime 1700000000 "UTC"))),
              Some (UpgradePolicyState.mk "scheduled")))
         (Ok None) (Ok []) (Ok []) (Ok []))
      (Sample.cluster false None Sample.noNodes))
      (Some (UpgradePolicy.mk "4.12.1" (Some (time.mkTime 1700000000 "UTC"))))
      (Some (UpgradePolicyState.mk "scheduled")))).
    eexists _, _. repeat split; discriminate.
  - destruct (proj1 (proj2 (proj2 (proj2 (proj2 (proj2 (proj2
      (scheduled_upgrade_rendering
         (Sample.world (Sample.cluster false None Sample.noNodes) false
            (Ok (Some (UpgradePolicy.mk "4.12.1" (Some (time.mkTime 1700000000 "UTC"))),
                 Some (UpgradePolicyState.mk "scheduled")))
            (Ok None) (Ok []) (Ok []) (Ok []))
         (Sample.cluster false None Sample.noNodes))))))))
      [] _ _ (mkARN "123456789012") [] [] eq_refl eq_refl eq_refl eq_refl eq_refl eq_refl)
      as [Hflow Hout].
    split; [exact Hflow |]. rewrite Hout. vm_compute. reflexivity.
Defined.

(** ** The scenarios of the specification *)

Example scenario_hosted_single_zone :
  let c := Sample.cluster true (Some []) Sample.noNodes in
  let pools := [NodePool.mk "us-east-1a" None 2 None; NodePool.mk "us-east-1a" None 3 None] in
  clusterMultiAZ c pools = hostedAvailability "SingleAZ" /\
  clusterInfraConfig c "mycluster" [] pools = hostedDesired 5 0.
Proof. split; reflexivity. Qed.

Example scenario_hosted_two_zones :
  let c := Sample.cluster true (Some []) Sample.noNodes in
  let pools := [NodePool.mk "us-east-1a" (Some (NodePoolAutoscaling.mk 1 4)) 0 None;
                NodePool.mk "us-east-1b" None 2 None] in
  clusterMultiAZ c pools = hostedAvailability "MultiAZ" /\
  clusterInfraConfig c "mycluster" [] pools = hostedAutoscaled 3 6 0.
Proof. split; reflexivity. Qed.

Example scenario_classic_no_pools :
  clusterInfraConfig (Sample.cluster false None (ClusterNodes.mk None 3 3 2)) "mycluster" [] []
  = "Nodes:" +:+ LF +:+
    " - Control plane:           3" +:+ LF +:+
    " - Infra:                   2" +:+ LF +:+
    " - Compute:                 3" +:+ LF.
Proof. reflexivity. Qed.

(** A classic text run from start to end, with the sample formatter in
    place of [Format]. *)
Example scenario_text_run :
  let c := Sample.cluster false None (ClusterNodes.mk None 3 3 2) in
  let w := Sample.world c false
             (Ok (Some (UpgradePolicy.mk "4.12.1" None), Some (UpgradePolicyState.mk "scheduled")))
             (Ok None) (Ok []) (Ok []) (Ok [LimitedSupportReason.mk "s1" "d1"]) in
  (execute w []).1 = Next tt /\
  stderr (execute w []).2 = [] /\
  calls (execute w []).2 =
    [(CallGetScheduledUpgrade, true); (CallGetMachinePools, true);
     (CallGetLimitedSupportReasons, true)] /\
  stdout (execute w []).2 =
      ["" +:+ LF +:+
       "Name:                       mycluster" +:+ LF +:+
       "ID:                         c1" +:+ LF +:+
       "External ID:                " +:+ LF +:+
       "Control Plane:              Customer Hosted" +:+ LF +:+
       "OpenShift Version:          4.12.0" +:+ LF +:+
       "Channel Group:              stable" +:+ LF +:+
       "DNS:                        Not ready" +:+ LF +:+
       "AWS Account:                123456789012" +:+ LF +:+
       "API URL:                    " +:+ LF +:+
       "Console URL:                " +:+ LF +:+
       "Region:                     us-east-1" +:+ LF +:+
       "Multi-AZ:                   false" +:+ LF +:+
       "Nodes:" +:+ LF +:+
       " - Control plane:           3" +:+ LF +:+
       " - Infra:                   2" +:+ LF +:+
       " - Compute:                 3" +:+ LF +:+
       "Network:" +:+ LF +:+
       " - Service CIDR:            " +:+ LF +:+
       " - Machine CIDR:            " +:+ LF +:+
       " - Pod CIDR:                " +:+ LF +:+
       " - Host Prefix:             /23" +:+ LF +:+
       "State:                      ready " +:+ LF +:+
       "Private:                    No" +:+ LF +:+
       "Created:                    Jan _2 2006 15:04:05 MST@-62135596800" +:+ LF +:+
       "Details Page:               https://console.redhat.com/openshift/details/s/" +:+ LF +:+
       "Scheduled Upgrade:          scheduled 4.12.1 on 2006-01-02 15:04 MST@-62135596800" +:+ LF +:+
       "Limited Support:" +:+ LF +:+
       " - Summary:                 s1" +:+ LF +:+
       " - Details:                 d1" +:+ LF +:+ LF].
Proof. cbv zeta. repeat split; vm_compute; reflexivity. Qed.

(** * Further properties *)

(** ** The billing account *)

(** X1: the billing-account line is rendered exactly for a hosted control
    plane with a non-empty billing account id; a classic cluster never shows
    it, whatever its billing account. *)
Theorem BillingAccount_rendered (cluster : Cluster.t) (isHostedControlPlane : bool) :
  (BillingAccount cluster isHostedControlPlane = "" <->
     isHostedControlPlane = false \/ Cluster.BillingAccountID cluster = "") /\
  (isHostedControlPlane = true -> Cluster.BillingAccountID cluster <> "" ->
   BillingAccount cluster isHostedControlPlane
   = "AWS Billing Account:        " +:+ Cluster.BillingAccountID cluster +:+ LF).
Proof.
  unfold BillingAccount.
  destruct isHostedControlPlane; simpl negb; cbv iota.
  - pose proof (nonEmpty_true (Cluster.BillingAccountID cluster)) as Hn.
    destruct (nonEmpty (Cluster.BillingAccountID cluster)); simpl.
    + assert (Cluster.BillingAccountID cluster <> "") by now apply Hn.
      split; [| reflexivity].
      split; [discriminate | intros [? | ?]; [discriminate | contradiction]].
    + assert (Hid : ~ Cluster.BillingAccountID cluster <> "") by (rewrite <- Hn; discriminate).
      split; [| intros _ Hne; contradiction].
      split; [| reflexivity]. intros _. right.
      destruct (String.eqb_spec (Cluster.BillingAccountID cluster) ""); [assumption | contradiction].
  - simpl. split; [| discriminate]. split; [now left | reflexivity].
Qed.

(** ** Zones *)

Section Zones.
Implicit Types (pools : list NodePool.t) (c : Cluster.t).

Lemma multiAzMap_set pools : multiAzMap pools = list_to_set (zones pools).
Proof. unfold multiAzMap, zones. rewrite multiAzMap_fold. apply (right_id_L ∅ (∪)). Qed.

Lemma dataPlane_same_zones c pools pools' :
  (forall z, z ∈ zones pools <-> z ∈ zones pools') ->
  dataPlaneAvailability c pools = dataPlaneAvailability c pools'.
Proof.
  intros Hz. unfold dataPlaneAvailability.
  replace (multiAzMap pools') with (multiAzMap pools); [reflexivity |].
  rewrite !multiAzMap_set. apply set_eq. intros z.
  rewrite !elem_of_list_to_set. apply Hz.
Qed.
End Zones.

(** X2: the availability section depends on the node pools only through the
    set of their zones: two lists with the same zones, in any order and with
    any repetition, give the same text; and for a classic cluster the pools
    are not looked at at all: any two lists give the same text. *)
Theorem clusterMultiAZ_same_zones (c : Cluster.t) :
  (forall pools pools',
     (forall z, z ∈ zones pools <-> z ∈ zones pools') ->
     clusterMultiAZ c pools = clusterMultiAZ c pools') /\
  (Cluster.HypershiftEnabled c = false ->
   forall pools pools', clusterMultiAZ c pools = clusterMultiAZ c pools').
Proof.
  split.
  - intros pools pools' Hz. unfold clusterMultiAZ.
    destruct (Cluster.HypershiftEnabled c); [| reflexivity].
    f_equal. now apply dataPlane_same_zones.
  - intros Hh pools pools'. unfold clusterMultiAZ. now rewrite Hh.
Qed.

Lemma clusterMultiAZ_same_zones_witness :
  let c := Sample.cluster true (Some []) Sample.noNodes in
  let classic := Sample.cluster false None Sample.noNodes in
  clusterMultiAZ c [Sample.az "a"; Sample.az "b"; Sample.az "a"]
  = clusterMultiAZ c [Sample.az "b"; Sample.az "a"] /\
  clusterMultiAZ classic [Sample.az "a"; Sample.az "b"] = clusterMultiAZ classic [].
Proof.
  cbv zeta. split.
  - apply (proj1 (clusterMultiAZ_same_zones (Sample.cluster true (Some []) Sample.noNodes))).
    intros z. unfold zones. simpl. rewrite !elem_of_cons. rewrite elem_of_nil. tauto.
  - apply (proj2 (clusterMultiAZ_same_zones (Sample.cluster false None Sample.noNodes))
             eq_refl).
Defined.

(** X3: a hosted cluster whose node pools all lie in one zone (no pool and a
    single pool included) is reported "SingleAZ". *)
Theorem clusterMultiAZ_one_zone (c : Cluster.t) (pools : list NodePool.t) (zone : string) :
  Cluster.HypershiftEnabled c = true ->
  Forall (fun p => NodePool.AvailabilityZone p = zone) pools ->
  clusterMultiAZ c pools =
    "Availability:" +:+ LF +:+
    " - Control Plane:           MultiAZ" +:+ LF +:+
    " - Data Plane:              SingleAZ" +:+ LF.
Proof.
  intros Hh Hall. unfold clusterMultiAZ, dataPlaneAvailability. rewrite Hh.
  destruct (Cluster.NodePools c); [| reflexivity].
  assert (Hsub : multiAzMap pools ⊆ ({[ zone ]} : gset string)).
  { rewrite multiAzMap_set. intros z. rewrite elem_of_list_to_set, elem_of_singleton.
    unfold zones. rewrite list_elem_of_In, in_map_iff. intros (p & <- & Hp).
    rewrite Forall_forall in Hall. apply Hall. now apply list_elem_of_In. }
  apply subseteq_size in Hsub. rewrite size_singleton in Hsub.
  destruct (Z.ltb_spec 1 (Z.of_nat (size (multiAzMap pools)))); [lia | reflexivity].
Qed.

Lemma clusterMultiAZ_one_zone_witness :
  clusterMultiAZ (Sample.cluster true (Some []) Sample.noNodes)
    [Sample.az "us-east-1a"; Sample.az "us-east-1a"; Sample.az "us-east-1a"]
  = "Availability:" +:+ LF +:+
    " - Control Plane:           MultiAZ" +:+ LF +:+
    " - Data Plane:              SingleAZ" +:+ LF.
Proof.
  apply (clusterMultiAZ_one_zone (Sample.cluster true (Some []) Sample.noNodes) _
           "us-east-1a" eq_refl).
  repeat constructor.
Defined.



(** ** Composition of the node counts *)

Section Counts.
Lemma add_wrap_wrap a b : Int.add (Int.wrap a) (Int.wrap b) = Int.wrap (a + b).
Proof.
  rewrite add_wrap. unfold Int.add.
  replace (a + Int.wrap b) with (Int.wrap b + a) by lia.
  change (Int.wrap (Int.wrap b + a)) with (Int.add (Int.wrap b) a).
  rewrite add_wrap. f_equal. lia.
Qed.

Lemma sumZ_app (l1 l2 : list Z) : sumZ (l1 ++ l2) = sumZ l1 + sumZ l2.
Proof. induction l1 as [|x l1 IH]; simpl; [reflexivity |]. unfold sumZ in *. simpl. lia. Qed.

Lemma sumZ_perm {A} (f : A -> Z) (l l' : list A) :
  l ≡ₚ l' -> sumZ (map f l) = sumZ (map f l').
Proof. induction 1; unfold sumZ in *; simpl; lia. Qed.

Lemma wrap_inj_ne a b : Int.wrap a <> Int.wrap b -> a <> b.
Proof. congruence. Qed.

Lemma sumZ_differ {A} (f g : A -> Z) (l : list A) :
  sumZ (map f l) <> sumZ (map g l) -> Exists (fun x => f x <> g x) l.
Proof.
  induction l as [|x l IH]; intros H; [now contradiction H |].
  destruct (Z.eq_dec (f x) (g x)) as [E | E]; [| now left].
  right. apply IH. intros Hs. apply H. unfold sumZ in *. simpl. lia.
Qed.
End Counts.

(** X5: the hosted node counts of two lists of node pools put together are
    the counts of each list added up in Go's [int], component by
    component. *)
Theorem hostedNodeCounts_app (pools pools' : list NodePool.t) :
  hostedNodeCounts (pools ++ pools')
  = addCounts (hostedNodeCounts pools) (hostedNodeCounts pools').
Proof.
  rewrite !hostedNodeCounts_sums. unfold addCounts. simpl.
  rewrite !add_wrap_wrap, !map_app, !sumZ_app. reflexivity.
Qed.

(** X6: the node section does not depend on the order in which the client
    returns the pools: permuting the machine pools and the node pools leaves
    [clusterInfraConfig] unchanged. *)
Theorem clusterInfraConfig_permutation (c : Cluster.t) (clusterKey : string)
    (machinePools machinePools' : list MachinePool.t)
    (nodePools nodePools' : list NodePool.t) :
  machinePools ≡ₚ machinePools' -> nodePools ≡ₚ nodePools' ->
  clusterInfraConfig c clusterKey machinePools nodePools
  = clusterInfraConfig c clusterKey machinePools' nodePools'.
Proof.
  intros Hm Hn. unfold clusterInfraConfig.
  rewrite !hostedNodeCounts_sums, !classicNodeCounts_sums.
  rewrite (sumZ_perm nodePoolMin _ _ Hn), (sumZ_perm nodePoolMax _ _ Hn),
    (sumZ_perm nodePoolCurrent _ _ Hn),
    (sumZ_perm machinePoolMin _ _ Hm), (sumZ_perm machinePoolMax _ _ Hm).
  reflexivity.
Qed.

Lemma clusterInfraConfig_permutation_witness :
  let c := Sample.cluster true (Some []) Sample.noNodes in
  let p1 := NodePool.mk "us-east-1a" (Some (NodePoolAutoscaling.mk 1 4)) 0 None in
  let p2 := NodePool.mk "us-east-1b" None 2 (Some (NodePoolStatus.mk 2)) in
  clusterInfraConfig c "mycluster" [] [p1; p2] = clusterInfraConfig c "mycluster" [] [p2; p1].
Proof.
  cbv zeta. apply clusterInfraConfig_permutation; [reflexivity | apply Permutation_swap].
Defined.

(** X7: a range is computed only when something autoscales between two
    different bounds: if [minNodes] and [maxNodes] differ, then for a hosted
    cluster some node pool, and for a classic cluster some machine pool or
    the cluster-level compute config, has an autoscale config whose minimum
    and maximum differ. *)
Theorem range_needs_autoscaling (c : Cluster.t) (machinePools : list MachinePool.t)
    (nodePools : list NodePool.t) :
  ((hostedNodeCounts nodePools).1.1 <> (hostedNodeCounts nodePools).1.2 ->
   Exists nodePoolAutoscales nodePools) /\
  ((classicNodeCounts c machinePools).1 <> (classicNodeCounts c machinePools).2 ->
   Exists machinePoolAutoscales machinePools \/ clusterComputeAutoscales c).
Proof.
  rewrite hostedNodeCounts_sums, classicNodeCounts_sums. simpl. split.
  - intros H. apply wrap_inj_ne, sumZ_differ in H.
    eapply Exists_impl; [exact H |]. intros p Hp. unfold nodePoolAutoscales.
    unfold nodePoolMin, nodePoolMax in Hp.
    destruct (NodePool.Autoscaling p) as [a|]; [eauto | congruence].
  - intros H. apply wrap_inj_ne in H.
    destruct (Z.eq_dec (clusterComputeMin c) (clusterComputeMax c)) as [E | E].
    + left. assert (Hs : sumZ (map machinePoolMin machinePools)
                         <> sumZ (map machinePoolMax machinePools)) by lia.
      apply sumZ_differ in Hs. eapply Exists_impl; [exact Hs |].
      intros p Hp. unfold machinePoolAutoscales.
      unfold machinePoolMin, machinePoolMax in Hp.
      destruct (MachinePool.Autoscaling p) as [a|]; [eauto | congruence].
    + right. unfold clusterComputeAutoscales.
      unfold clusterComputeMin, clusterComputeMax in E.
      destruct (ClusterNodes.AutoscaleCompute (Cluster.Nodes c)) as [a|]; [eauto | congruence].
Qed.

Lemma range_needs_autoscaling_witness :
  Exists nodePoolAutoscales
    [NodePool.mk "us-east-1b" None 2 None;
     NodePool.mk "us-east-1a" (Some (NodePoolAutoscaling.mk 1 4)) 0 None].
Proof.
  apply (proj1 (range_needs_autoscaling (Sample.cluster true (Some []) Sample.noNodes) []
    [NodePool.mk "us-east-1b" None 2 None;
     NodePool.mk "us-east-1a" (Some (NodePoolAutoscaling.mk 1 4)) 0 None])).
  vm_compute. discriminate.
Defined.

(** ** The structured output *)

(** X8: both formatters leave every key of the decoded cluster other than
    "scheduledUpgrade" as it was decoded: nothing is removed and nothing
    else is changed. *)
Theorem formatters_keep_other_keys (w : World) (c : Cluster.t)
    (ret : gmap string Value) (key : string) :
  decodeCluster w c = Ok ret -> key <> "scheduledUpgrade" ->
  (forall su us, exists ret',
     formatCluster w c su us = Ok ret' /\ ret' !! key = ret !! key) /\
  (forall cp, exists ret',
     formatClusterHypershift w c cp = Ok ret' /\ ret' !! key = ret !! key).
Proof.
  intros Hd Hk. split.
  - intros su us. rewrite formatCluster_cases, Hd.
    destruct (notNil su && notNil us && (0 <? Int.len (UpgradePolicy.Version su))
              && (0 <? Int.len (UpgradePolicyState.Value us)));
      eexists; (split; [reflexivity |]); [| reflexivity].
    now rewrite lookup_insert_ne.
  - intros cp. rewrite formatClusterHypershift_cases, Hd.
    destruct (notNil cp && notNil (ControlPlaneUpgradePolicy.State cp)
              && (0 <? Int.len (ControlPlaneUpgradePolicy.Version cp))
              && (0 <? Int.len (UpgradePolicyState.Value
                                  (ControlPlaneUpgradePolicy.State cp))));
      eexists; (split; [reflexivity |]); [| reflexivity].
    now rewrite lookup_insert_ne.
Qed.

Lemma formatters_keep_other_keys_witness :
  let c := Sample.cluster false None Sample.noNodes in
  let w := withCodec (Sample.world c true (Ok (None, None)) (Ok None) (Ok []) (Ok []) (Ok []))
             (fun _ => Ok "{}") (fun _ => Ok "{}")
             (fun _ => Ok (<["id" := VString "c1"]> ∅)) (fun _ => Ok (mkARN "")) in
  exists ret',
    formatCluster w c (Some (UpgradePolicy.mk "4.12.1" None))
      (Some (UpgradePolicyState.mk "scheduled")) = Ok ret' /\
    ret' !! "id" = Some (VString "c1").
Proof.
  cbv zeta.
  destruct (proj1 (formatters_keep_other_keys
    (withCodec (Sample.world (Sample.cluster false None Sample.noNodes) true
                  (Ok (None, None)) (Ok None) (Ok []) (Ok []) (Ok []))
       (fun _ => Ok "{}") (fun _ => Ok "{}")
       (fun _ => Ok (<["id" := VString "c1"]> ∅)) (fun _ => Ok (mkARN "")))
    (Sample.cluster false None Sample.noNodes)
    (<["id" := VString "c1"]> ∅) "id" eq_refl ltac:(discriminate))
    (Some (UpgradePolicy.mk "4.12.1" None)) (Some (UpgradePolicyState.mk "scheduled")))
    as (ret' & Hf & Hk).
  exists ret'. split; [exact Hf |]. rewrite Hk. reflexivity.
Defined.

(** X9: a formatter fails exactly when the cluster cannot be serialized or
    the serialized cluster cannot be decoded, and then it returns that very
    error, whatever the upgrade policy; a failed serialization is never
    decoded. *)
Theorem formatters_propagate_errors (w : World) (c : Cluster.t) (err : string) :
  (forall su us,
     formatCluster w c su us = Err err <->
     MarshalCluster w c = Err err \/
     exists b, MarshalCluster w c = Ok b /\ jsonUnmarshal w b = Err err) /\
  (forall cp,
     formatClusterHypershift w c cp = Err err <->
     MarshalCluster w c = Err err \/
     exists b, MarshalCluster w c = Ok b /\ jsonUnmarshal w b = Err err).
Proof.
  split.
  - intros su us. rewrite formatCluster_cases. unfold decodeCluster.
    destruct (MarshalCluster w c) as [b | e].
    + destruct (jsonUnmarshal w b) as [ret | e] eqn:Hu.
      * destruct (notNil su && notNil us && (0 <? Int.len (UpgradePolicy.Version su))
                  && (0 <? Int.len (UpgradePolicyState.Value us)));
          (split; [discriminate | intros [? | (b' & [= <-] & Hb)]; congruence]).
      * split; [intros [= ->]; right; eauto |].
        intros [? | (b' & [= <-] & Hb)]; congruence.
    + split; [intros [= ->]; now left |].
      intros [? | (b' & ? & _)]; congruence.
  - intros cp. rewrite formatClusterHypershift_cases. unfold decodeCluster.
    destruct (MarshalCluster w c) as [b | e].
    + destruct (jsonUnmarshal w b) as [ret | e] eqn:Hu.
      * destruct (notNil cp && notNil (ControlPlaneUpgradePolicy.State cp)
                  && (0 <? Int.len (ControlPlaneUpgradePolicy.Version cp))
                  && (0 <? Int.len (UpgradePolicyState.Value
                                      (ControlPlaneUpgradePolicy.State cp))));
          (split; [discriminate | intros [? | (b' & [= <-] & Hb)]; congruence]).
      * split; [intros [= ->]; right; eauto |].
        intros [? | (b' & [= <-] & Hb)]; congruence.
    + split; [intros [= ->]; now left |].
      intros [? | (b' & ? & _)]; congruence.
Qed.

(** ** The calls and the outcome of a run *)

Section Outcome.
Implicit Types (w : World) (argv : list string).

Ltac unfold_run :=
  unfold execute, run, describeText, printStructured, mbind, M_bind, mret, M_ret,
    ocm, Errorf, os_Exit, fmt_Print, return_, start.

Ltac case_run :=
  match goal with
  | |- context [match ?x with _ => _ end] => destruct x eqn:?
  | H : context [match ?x with _ => _ end] |- _ => destruct x eqn:?
  end.

(** The client calls are made in the order of the source and stop at the
    first failure. *)
Lemma run_call_log w argv :
  exists n : nat,
    (1 <= n)%nat /\
    map fst (calls (execute w argv).2)
    = take n (callSequence (Cluster.HypershiftEnabled (FetchCluster w))) /\
    forall (i : nat) c, calls (execute w argv).2 !! i = Some (c, false) ->
                        S i = length (calls (execute w argv).2).
Proof.
  unfold callSequence. unfold_run.
  repeat case_run; simplify_eq/=;
    first
      [ exists 1%nat; split; [lia |]; split; [reflexivity |];
        intros [|i] c Hi; simplify_eq/=; reflexivity
      | exists 2%nat; split; [lia |]; split; [reflexivity |];
        intros [|[|i]] c Hi; simplify_eq/=; reflexivity
      | exists 3%nat; split; [lia |]; split; [reflexivity |];
        intros [|[|[|i]]] c Hi; simplify_eq/=; reflexivity ].
Qed.

(** How a run can end. *)
Lemma run_outcome w argv :
  ((execute w argv).1 = Next tt /\ HasFlag w = false /\
   length (stdout (execute w argv).2) = 1%nat /\ stderr (execute w argv).2 = []) \/
  ((execute w argv).1 = Return /\ HasFlag w = true /\
   length (stdout (execute w argv).2) = 1%nat /\ stderr (execute w argv).2 = []) \/
  ((execute w argv).1 = Exit 1 /\ stdout (execute w argv).2 = [] /\
   length (stderr (execute w argv).2) = 1%nat).
Proof.
  unfold_run.
  repeat case_run; simplify_eq/=;
    first [ left; repeat split; (reflexivity || assumption)
          | right; left; repeat split; (reflexivity || assumption)
          | right; right; repeat split; reflexivity ].
Qed.
End Outcome.


(** X11: a run never mixes the two cluster shapes: for a hosted cluster the
    classic upgrade policy and the machine pools are never fetched, and for a
    classic cluster the control-plane upgrade policy and the node pools are
    never fetched. *)
Theorem run_keeps_to_its_shape (w : World) (argv : list string) (outcome : bool) :
  (Cluster.HypershiftEnabled (FetchCluster w) = true ->
   ~ In (CallGetScheduledUpgrade, outcome) (calls (execute w argv).2) /\
   ~ In (CallGetMachinePools, outcome) (calls (execute w argv).2)) /\
  (Cluster.HypershiftEnabled (FetchCluster w) = false ->
   ~ In (CallGetControlPlaneScheduledUpgrade, outcome) (calls (execute w argv).2) /\
   ~ In (CallGetNodePools, outcome) (calls (execute w argv).2)).
Proof.
  destruct (run_call_log w argv) as (n & _ & Hseq & _).
  assert (Hin : forall c, In (c, outcome) (calls (execute w argv).2) ->
                          In c (callSequence (Cluster.HypershiftEnabled (FetchCluster w)))).
  { intros c Hc. apply (in_map fst) in Hc. rewrite Hseq in Hc. simpl in Hc.
    apply list_elem_of_In. apply list_elem_of_In in Hc.
    apply elem_of_take in Hc as (i & Hi & _). apply list_elem_of_lookup. eauto. }
  split; intros Hh; rewrite Hh in Hin; split; intros Hc; apply Hin in Hc;
    simpl in Hc; intuition discriminate.
Qed.

(** X12: a run ends in one of three ways: it falls through with the text
    report written once to standard output (no output flag), it returns
    after the structured output was written once (output flag), or it exits
    with status 1, one reporter message and nothing on standard output.  No
    other exit status occurs and standard output is never written twice. *)
Theorem run_ends_in_three_ways (w : World) (argv : list string) :
  ((execute w argv).1 = Next tt /\ HasFlag w = false /\
   length (stdout (execute w argv).2) = 1%nat /\ stderr (execute w argv).2 = []) \/
  ((execute w argv).1 = Return /\ HasFlag w = true /\
   length (stdout (execute w argv).2) = 1%nat /\ stderr (execute w argv).2 = []) \/
  ((execute w argv).1 = Exit 1 /\ stdout (execute w argv).2 = [] /\
   length (stderr (execute w argv).2) = 1%nat).
Proof. apply run_outcome. Qed.

Section Modes.
Implicit Types (w : World) (argv : list string).

Ltac unfold_run :=
  unfold execute, run, describeText, printStructured, mbind, M_bind, mret, M_ret,
    ocm, Errorf, os_Exit, fmt_Print, return_, start.

Ltac case_run :=
  match goal with
  | |- context [match ?x with _ => _ end] => destruct x eqn:?
  | H : context [match ?x with _ => _ end] |- _ => destruct x eqn:?
  end.


Lemma arn_failure_cases w argv err :
  HasFlag w = false -> upgradeFetched w = true ->
  arnParse w (default "" (Cluster.Properties (FetchCluster w) !! CreatorARN w)) = Err err ->
  execute w argv
  = (Exit 1,
     mkProcess []
       ["Failed to parse creator ARN for cluster '" +:+ clusterKeyOf w argv +:+ "'"]
       [(hd CallGetScheduledUpgrade
           (callSequence (Cluster.HypershiftEnabled (FetchCluster w))), true)]).
Proof.
  intros Hflag Hup Harn. unfold upgradeFetched in Hup. unfold clusterKeyOf, callSequence.
  unfold_run. rewrite Hflag, Harn.
  repeat case_run; simplify_eq/=; reflexivity.
Qed.
End Modes.



(** X14: in text mode a creator ARN that does not parse (a cluster without
    the creator-ARN property is parsed as the empty string) ends the run
    right after the upgrade fetch: exit status 1, the one message "Failed to
    parse creator ARN for cluster '<key>'" without the parser's error, no
    pool or limited-support fetch, nothing on standard output. *)
Theorem creator_arn_failure (w : World) (argv : list string) (err : string) :
  HasFlag w = false -> upgradeFetched w = true ->
  arnParse w (default "" (Cluster.Properties (FetchCluster w) !! CreatorARN w)) = Err err ->
  (execute w argv).1 = Exit 1 /\
  stdout (execute w argv).2 = [] /\
  stderr (execute w argv).2
  = ["Failed to parse creator ARN for cluster '" +:+ clusterKeyOf w argv +:+ "'"] /\
  length (calls (execute w argv).2) = 1%nat.
Proof.
  intros Hflag Hup Harn. rewrite (arn_failure_cases w argv err Hflag Hup Harn).
  repeat split.
Qed.

Lemma creator_arn_failure_witness :
  let w := withCodec
             (Sample.world (Sample.cluster false None Sample.noNodes) false
                (Ok (None, None)) (Ok None) (Ok []) (Ok []) (Ok []))
             (fun _ => Ok "{}") (fun _ => Ok "{}") (fun _ => Ok ∅)
             (fun s => if String.eqb s "" then Err "arn: invalid prefix" else Ok (mkARN s)) in
  (execute w ["prod"]).1 = Exit 1 /\
  stderr (execute w ["prod"]).2 = ["Failed to parse creator ARN for cluster 'mycluster'"].
Proof.
  cbv zeta.
  destruct (creator_arn_failure
    (withCodec
       (Sample.world (Sample.cluster false None Sample.noNodes) false
          (Ok (None, None)) (Ok None) (Ok []) (Ok []) (Ok []))
       (fun _ => Ok "{}") (fun _ => Ok "{}") (fun _ => Ok ∅)
       (fun s => if String.eqb s "" then Err "arn: invalid prefix" else Ok (mkARN s)))
    ["prod"] "arn: invalid prefix" eq_refl eq_refl eq_refl) as (He & _ & Hs & _).
  split; [exact He | exact Hs].
Defined.

Section TextMode.
Implicit Types (w : World) (argv : list string).

Ltac unfold_run :=
  unfold execute, run, describeText, printStructured, mbind, M_bind, mret, M_ret,
    ocm, Errorf, os_Exit, fmt_Print, return_, start.

Ltac case_run :=
  match goal with
  | |- context [match ?x with _ => _ end] => destruct x eqn:?
  | H : context [match ?x with _ => _ end] |- _ => destruct x eqn:?
  end.

End TextMode.



(** ** Optional sections of the text report *)

Section Sections.
Implicit Types (c : Cluster.t) (str : string).



End Sections.



(** ** The trust bundle *)

Section TrustBundle.
Implicit Types (w : World) (c : Cluster.t) (bundle str : string).

(** What the text path reads of the world and of the cluster does not
    involve the contents of the bundle. *)
Lemma world_getters w c :
  FetchCluster (withCluster w c) = c /\
  HasFlag (withCluster w c) = HasFlag w /\
  GetClusterKey (withCluster w c) = GetClusterKey w /\
  flagClusterChanged (withCluster w c) = flagClusterChanged w /\
  GetScheduledUpgrade (withCluster w c) = GetScheduledUpgrade w /\
  GetControlPlaneScheduledUpgrade (withCluster w c) = GetControlPlaneScheduledUpgrade w /\
  GetMachinePools (withCluster w c) = GetMachinePools w /\
  GetNodePools (withCluster w c) = GetNodePools w /\
  GetLimitedSupportReasons (withCluster w c) = GetLimitedSupportReasons w /\
  GetConnectionURL (withCluster w c) = GetConnectionURL w /\
  arnParse (withCluster w c) = arnParse w /\
  CreatorARN (withCluster w c) = CreatorARN w.
Proof. repeat split. Qed.

Lemma cluster_getters c bundle :
  Cluster.HypershiftEnabled (withAdditionalTrustBundle c bundle) = Cluster.HypershiftEnabled c /\
  Cluster.ID (withAdditionalTrustBundle c bundle) = Cluster.ID c /\
  Cluster.Properties (withAdditionalTrustBundle c bundle) = Cluster.Properties c.
Proof. repeat split. Qed.

Lemma shortDescription_bundle w c bundle key hosted :
  shortDescription (withCluster w (withAdditionalTrustBundle c bundle))
    (withAdditionalTrustBundle c bundle) key hosted
  = shortDescription w c key hosted.
Proof. reflexivity. Qed.

Lemma detailSections_bundle w c bundle page :
  bundle <> "" ->
  detailSections (withCluster w (withAdditionalTrustBundle c bundle))
    (withAdditionalTrustBundle c bundle) page
  = detailSections w (withAdditionalTrustBundle c "-") page.
Proof.
  intros Hb. apply nonEmpty_true in Hb. unfold detailSections.
  cbn [Cluster.AdditionalTrustBundle withAdditionalTrustBundle]. rewrite Hb.
  reflexivity.
Qed.

Lemma scheduledUpgradeSection_bundle w c hosted :
  scheduledUpgradeSection (withCluster w c) hosted = scheduledUpgradeSection w hosted.
Proof. reflexivity. Qed.

Lemma provisionErrorSection_bundle c bundle :
  provisionErrorSection (withAdditionalTrustBundle c bundle) = provisionErrorSection c.
Proof. reflexivity. Qed.

Lemma execute_bundle w c bundle argv :
  HasFlag w = false -> bundle <> "" ->
  execute (withCluster w (withAdditionalTrustBundle c bundle)) argv
  = execute (withCluster w (withAdditionalTrustBundle c "-")) argv.
Proof.
  intros Hflag Hb. unfold execute, run, describeText. cbv zeta.
  pose proof (world_getters w (withAdditionalTrustBundle c bundle))
    as (E1 & E2 & E3 & E4 & E5 & E6 & E7 & E8 & E9 & E10 & E11 & E12).
  pose proof (world_getters w (withAdditionalTrustBundle c "-"))
    as (F1 & F2 & F3 & F4 & F5 & F6 & F7 & F8 & F9 & F10 & F11 & F12).
  pose proof (cluster_getters c bundle) as (G1 & G2 & G3).
  pose proof (cluster_getters c "-") as (K1 & K2 & K3).
  rewrite !E1, !F1, !E2, !F2, !E3, !F3, !E4, !F4, ?E5, ?F5, ?E6, ?F6, ?E7, ?F7,
    ?E8, ?F8, ?E9, ?F9, ?E10, ?F10, ?E11, ?F11, ?E12, ?F12.
  rewrite !G1, !K1, ?G2, ?K2, ?G3, ?K3, Hflag.
  rewrite !shortDescription_bundle, !scheduledUpgradeSection_bundle,
    !provisionErrorSection_bundle.
  rewrite !(detailSections_bundle w c bundle) by assumption.
  rewrite !(detailSections_bundle w c "-") by discriminate.
  reflexivity.
Qed.
End TrustBundle.

(** X18: the text report never shows the additional trust bundle, only that
    there is one: two clusters that differ only in the contents of a
    non-empty trust bundle give the same run in text mode (same output, same
    messages, same calls). *)
Theorem trust_bundle_redacted (w : World) (c : Cluster.t) (bundle bundle' : string)
    (argv : list string) :
  HasFlag w = false -> bundle <> "" -> bundle' <> "" ->
  execute (withCluster w (withAdditionalTrustBundle c bundle)) argv
  = execute (withCluster w (withAdditionalTrustBundle c bundle')) argv.
Proof.
  intros Hflag Hb Hb'.
  rewrite (execute_bundle w c bundle argv Hflag Hb).
  now rewrite (execute_bundle w c bundle' argv Hflag Hb').
Qed.

Lemma trust_bundle_redacted_witness :
  let w := Sample.world (Sample.cluster false None Sample.noNodes) false
             (Ok (None, None)) (Ok None) (Ok []) (Ok []) (Ok []) in
  execute (withCluster w (withAdditionalTrustBundle (FetchCluster w) "CERTIFICATE A")) []
  = execute (withCluster w (withAdditionalTrustBundle (FetchCluster w) "CERTIFICATE B")) [].
Proof.
  cbv zeta.
  apply (trust_bundle_redacted
    (Sample.world (Sample.cluster false None Sample.noNodes) false
       (Ok (None, None)) (Ok None) (Ok []) (Ok []) (Ok [])));
    [reflexivity | discriminate | discriminate].
Defined.
